(** * Vintage Clothier: the completion, pricing and ranking engine

    A shallow embedding of [main.py] and [schemas.py].

    - Python floats are IEEE binary64 numbers: the kernel's primitive
      floats, with the same operations and the same rounding.
    - Python strings are modelled as [string]; [str.lower] acts on the
      ASCII letters and leaves every other character as it is.
    - A Python [dict] with string keys is a [gmap string value].
    - A raised exception is [None] in the [option] monad. *)

From Stdlib Require Import ZArith Floats String Ascii List Lia.
From stdpp Require Import gmap strings list fin_maps option.

Set Warnings "-inexact-float".
Open Scope string_scope.

(** ** Python numbers *)

Module PyFloat.

(** The integer nearest to [num / den] for [den > 0], ties to the even
    neighbour. *)
Definition round_half_even (num den : Z) : Z :=
  let q := (num / den)%Z in
  let r := (num mod den)%Z in
  match (2 * r ?= den)%Z with
  | Lt => q
  | Gt => (q + 1)%Z
  | Eq => if Z.even q then q else (q + 1)%Z
  end.

(** The builtin [round(x, 2)] on a float: the exact value of [x] is
    rounded to two decimals (ties to even), and the decimal is read back
    as the nearest binary64 number.  A float with a non-negative binary
    exponent is an integer and rounds to itself; zeros, infinities and
    nan round to themselves; the sign is kept. *)
Definition round2 (x : float) : float :=
  match Prim2SF x with
  | S754_finite s m e =>
      if (0 <=? e)%Z then x
      else
        match round_half_even (Zpos m * 100) (2 ^ (- e)) with
        | Zpos n =>
            SF2Prim (SFdiv prec emax (S754_finite s n 0) (S754_finite false 100 0))
        | _ => SF2Prim (S754_zero s)
        end
  | _ => x
  end.

(** Truth value of a float: every float but the two zeros. *)
Definition truthy (x : float) : bool := negb (x =? 0)%float.

End PyFloat.

(** ** Python strings *)

Module PyStr.

Definition lower_ascii (c : ascii) : ascii :=
  let n := nat_of_ascii c in
  if (65 <=? n)%nat && (n <=? 90)%nat then ascii_of_nat (n + 32) else c.

(** [s.lower()] on ASCII text: the letters A to Z are mapped to a to z and
    every other character is left as it is. *)
Fixpoint lower (s : string) : string :=
  match s with
  | EmptyString => EmptyString
  | String c s' => String (lower_ascii c) (lower s')
  end.

(** [needle in hay] *)
Fixpoint contains (needle hay : string) : bool :=
  String.prefix needle hay ||
  match hay with
  | EmptyString => false
  | String _ hay' => contains needle hay'
  end.

(** [s in l] for a list of strings *)
Definition mem (s : string) (l : list string) : bool :=
  existsb (String.eqb s) l.

(** [any(w in s for w in kws)] *)
Definition any_in (kws : list string) (s : string) : bool :=
  existsb (fun w => contains w s) kws.

Definition truthy (s : string) : bool := negb (String.eqb s "").

End PyStr.

(** ** schemas.py *)

Module Measurement.
Record t := mk {
  height_cm : option float;
  weight_kg : option float;
  chest_cm : option float;
  waist_cm : option float;
  hips_cm : option float;
  sleeve_cm : option float;
  inseam_cm : option float
}.

Definition in_range (lo hi : float) (o : option float) : bool :=
  match o with
  | None => true
  | Some x => (lo <=? x)%float && (x <=? hi)%float
  end.

(** The [Field(ge=..., le=...)] bounds checked when the model is built. *)
Definition valid (m : t) : bool :=
  in_range 100 230 (height_cm m) && in_range 35 200 (weight_kg m) &&
  in_range 60 150 (chest_cm m) && in_range 50 150 (waist_cm m) &&
  in_range 60 160 (hips_cm m) && in_range 40 80 (sleeve_cm m) &&
  in_range 60 100 (inseam_cm m).
End Measurement.

Module Customization.
Record t := mk {
  product_id : option string;
  category : string;
  color : option string;
  fabric : option string;
  size : option string;
  fit : option string;
  pattern : option string;
  preferences : option string;
  auto : bool;
  measurements : option Measurement.t
}.

(** [Customization(category=cat)]: every other field at its default. *)
Definition of_category (cat : string) : t :=
  mk None cat None None None None None None false None.

Definition valid (c : t) : bool :=
  match measurements c with
  | None => true
  | Some m => Measurement.valid m
  end.
End Customization.

Module RecommendationRequest.
Record t := mk {
  purpose : option string;
  style : option string;
  climate : option string;
  budget : option float;
  category : option string;
  colors : option (list string)
}.
End RecommendationRequest.

Module ChatMessage.
Record t := mk { role : string; content : string }.
End ChatMessage.

Module ChatRequest.
Record t := mk { messages : list ChatMessage.t }.
End ChatRequest.

(** ** Dictionary values *)

(** What a dictionary of this program holds: [None], a bool, a number, a
    string, a list of strings (a product's option list), a dumped
    [Measurement], or a stored document's [ObjectId] (as its hex string). *)
Inductive value :=
  | VNone
  | VBool (b : bool)
  | VNum (x : float)
  | VStr (s : string)
  | VList (l : list string)
  | VMeasurement (m : Measurement.t)
  | VId (oid : string).

Definition truthy (v : value) : bool :=
  match v with
  | VNone => false
  | VBool b => b
  | VNum x => PyFloat.truthy x
  | VStr s => PyStr.truthy s
  | VList l => negb (bool_decide (l = []))
  | VMeasurement _ => true
  | VId _ => true
  end.

(** [d.get(k)] *)
Definition get (d : gmap string value) (k : string) : value :=
  default VNone (d !! k).

(** [a or b] *)
Definition py_or (a b : value) : value := if truthy a then a else b.

(** [bool(d)] for a dictionary *)
Definition dict_truthy (d : gmap string value) : bool :=
  negb (bool_decide (dom d = ∅)).

Definition of_opt_str (o : option string) : value :=
  match o with Some s => VStr s | None => VNone end.

Definition of_opt_measurement (o : option Measurement.t) : value :=
  match o with Some m => VMeasurement m | None => VNone end.

(** [cust.model_dump()] *)
Definition model_dump (cust : Customization.t) : gmap string value :=
  <["product_id" := of_opt_str (Customization.product_id cust)]>
  (<["category" := VStr (Customization.category cust)]>
  (<["color" := of_opt_str (Customization.color cust)]>
  (<["fabric" := of_opt_str (Customization.fabric cust)]>
  (<["size" := of_opt_str (Customization.size cust)]>
  (<["fit" := of_opt_str (Customization.fit cust)]>
  (<["pattern" := of_opt_str (Customization.pattern cust)]>
  (<["preferences" := of_opt_str (Customization.preferences cust)]>
  (<["auto" := VBool (Customization.auto cust)]>
  (<["measurements" := of_opt_measurement (Customization.measurements cust)]>
   ∅))))))))).

(** ** main.py: the completion engine *)

(** The result of [auto_complete_customization]:
    [{"config": result, "est_price": est_price}]. *)
Record completion := Completion {
  config : gmap string value;
  est_price : float
}.

(** The category defaults table, each bundle in the order it is written. *)
Definition defaults_table : list (string * list (string * string)) := [
  ("suit", [("fit", "tailored"); ("fabric", "worsted wool");
            ("color", "navy"); ("pattern", "solid")]);
  ("boots", [("color", "oxblood"); ("fabric", "full-grain leather");
             ("fit", "regular")]);
  ("shoes", [("color", "chestnut"); ("fabric", "calf leather");
             ("fit", "regular")]);
  ("hat", [("color", "charcoal"); ("fabric", "felt"); ("pattern", "solid")]);
  ("belt", [("color", "dark brown"); ("fabric", "leather")]);
  ("shirt", [("color", "white"); ("fabric", "oxford"); ("fit", "slim")]);
  ("trousers", [("color", "charcoal"); ("fabric", "wool"); ("fit", "classic")])
].

Definition defaults : gmap string (list (string * string)) :=
  list_to_map defaults_table.

(** [defaults.get(category, {})] *)
Definition defaults_get (category : string) : list (string * string) :=
  default [] (defaults !! category).

Definition option_keys : list string :=
  ["color"; "fabric"; "size"; "fit"; "pattern"].

(** One round of the loop over [option_keys]. *)
Definition inherit_key (product result : gmap string value) (key : string)
  : gmap string value :=
  if negb (truthy (get result key)) then
    let options :=
      match product !! (key ++ "s") with
      | Some v => v
      | None => get product key
      end in
    match options with
    | VList (o :: _) => <[key := VStr o]> result
    | _ => result
    end
  else result.

(** "Pull available options from product if provided" *)
Definition inherit_options (product : option (gmap string value))
    (result : gmap string value) : gmap string value :=
  match product with
  | Some p =>
      if dict_truthy p then foldl (inherit_key p) result option_keys
      else result
  | None => result
  end.

(** "Apply defaults for any missing" *)
Definition apply_defaults (base : list (string * string))
    (result : gmap string value) : gmap string value :=
  foldl (fun result kv => <[kv.1 := py_or (get result kv.1) (VStr kv.2)]> result)
        result base.

Definition size_band (chest_cm : float) : string :=
  if (chest_cm <? 90)%float then "XS"
  else if (chest_cm <? 96)%float then "S"
  else if (chest_cm <? 102)%float then "M"
  else if (chest_cm <? 110)%float then "L"
  else "XL".

(** "Simple size inference" *)
Definition infer_size (cust : Customization.t) (result : gmap string value)
  : gmap string value :=
  match Customization.measurements cust with
  | Some m =>
      match Measurement.chest_cm m with
      | Some chest =>
          if negb (truthy (get result "size")) && PyFloat.truthy chest
          then <["size" := VStr (size_band chest)]> result
          else result
      | None => result
      end
  | None => result
  end.

(** The field map after product inheritance and category defaults. *)
Definition prefill (cust : Customization.t) (product : option (gmap string value))
  : gmap string value :=
  let result := model_dump cust in
  let base := defaults_get (Customization.category cust) in
  let result := inherit_options product result in
  apply_defaults base result.

(** The filled field map, before pricing. *)
Definition fill (cust : Customization.t) (product : option (gmap string value))
  : gmap string value :=
  infer_size cust (prefill cust product).

(** [product.get("base_price", 300) if product else 300] *)
Definition base_price_of (product : option (gmap string value)) : value :=
  match product with
  | Some p => if dict_truthy p then default (VNum 300) (p !! "base_price") else VNum 300
  | None => VNum 300
  end.

(** [v.lower()]: only a string has the method. *)
Definition str_lower (v : value) : option string :=
  match v with
  | VStr s => Some (PyStr.lower s)
  | _ => None
  end.

Definition fabric_step (result : gmap string value) (multipliers : float)
  : option float :=
  if truthy (get result "fabric") then
    fab ← str_lower (get result "fabric");
    Some (if PyStr.contains "cashmere" fab then multipliers + 0.6
          else if PyStr.contains "wool" fab then multipliers + 0.25
          else if PyStr.contains "leather" fab then multipliers + 0.35
          else if PyStr.contains "linen" fab then multipliers + 0.15
          else multipliers)%float
  else Some multipliers.

Definition pattern_step (result : gmap string value) (multipliers : float)
  : option float :=
  if truthy (get result "pattern") then
    pat ← str_lower (get result "pattern");
    Some (if PyStr.mem pat ["pinstripe"; "herringbone"; "houndstooth"]
          then multipliers + 0.1 else multipliers)%float
  else Some multipliers.

Definition fit_step (result : gmap string value) (multipliers : float)
  : option float :=
  if truthy (get result "fit") then
    f ← str_lower (get result "fit");
    Some (if PyStr.mem f ["tailored"; "slim"]
          then multipliers + 0.05 else multipliers)%float
  else Some multipliers.

(** The float a value stands for in arithmetic: a number, or a bool (which
    is a number); anything else raises [TypeError]. *)
Definition as_number (v : value) : option float :=
  match v with
  | VNum x => Some x
  | VBool b => Some (if b then 1 else 0)%float
  | _ => None
  end.

(** [v * y] for a float [y] *)
Definition mul_float (v : value) (y : float) : option float :=
  x ← as_number v;
  Some (x * y)%float.

(** "Estimate price" *)
Definition estimate_price (product : option (gmap string value))
    (result : gmap string value) : option float :=
  let base_price := base_price_of product in
  m ← fabric_step result 1%float;
  m ← pattern_step result m;
  m ← fit_step result m;
  p ← mul_float base_price m;
  Some (PyFloat.round2 p).

Definition auto_complete_customization (cust : Customization.t)
    (product : option (gmap string value)) : option completion :=
  let result := fill cust product in
  est_price ← estimate_price product result;
  Some (Completion result est_price).

(** ** main.py: the endpoints over the document store *)

(** One entry of the list [recommendations] returns. *)
Record recommendation := Recommendation {
  rec_product_id : option string;
  rec_title : value;
  rec_category : value;
  suggested_config : gmap string value;
  rec_est_price : float;
  rationale : string
}.

(** The body of a [chat] response; [data] is [None] for the empty [{}]. *)
Record chat_response := ChatResponse {
  reply : string;
  data : option (list recommendation)
}.

(** [str(v)], for the values whose text this model gives: an [ObjectId]
    prints as its hex string and a string as itself.  [None] on the others
    (their text is outside the model). *)
Definition py_str (v : value) : option string :=
  match v with
  | VId oid => Some oid
  | VStr s => Some s
  | _ => None
  end.

(** The virtual suggestions used when no product is stored. *)
Definition seed_suit : gmap string value :=
  {[ "title" := VStr "Savile Row Three-Piece Suit";
     "category" := VStr "suit"; "base_price" := VNum 1200 ]}.

Definition seed_boots : gmap string value :=
  {[ "title" := VStr "Full-Grain Leather Boots";
     "category" := VStr "boots"; "base_price" := VNum 380 ]}.

Definition seed_shirt : gmap string value :=
  {[ "title" := VStr "Classic Oxford Shirt";
     "category" := VStr "shirt"; "base_price" := VNum 120 ]}.

Definition seed : list (gmap string value) :=
  [seed_suit; seed_boots; seed_shirt].

(** "If no products seeded yet, provide virtual suggestions" *)
Definition or_seed (products : list (gmap string value))
  : list (gmap string value) :=
  match products with
  | [] => seed
  | _ => products
  end.

(** [p.get("category", req.category or "suit")], passed to
    [Customization(category=...)], which accepts a string only. *)
Definition candidate_category (req : RecommendationRequest.t)
    (p : gmap string value) : option string :=
  match default (py_or (of_opt_str (RecommendationRequest.category req)) (VStr "suit"))
                (p !! "category") with
  | VStr s => Some s
  | _ => None
  end.

(** [req.budget and price > req.budget * 1.2] *)
Definition over_budget (req : RecommendationRequest.t) (price : float) : bool :=
  match RecommendationRequest.budget req with
  | Some b => PyFloat.truthy b && (b * 1.2 <? price)%float
  | None => false
  end.

Definition choose_rationale (req : RecommendationRequest.t) : string :=
  let rationale := "Balanced choice with premium materials" in
  let rationale :=
    match RecommendationRequest.style req with
    | Some style =>
        if PyStr.truthy style && PyStr.mem (PyStr.lower style) ["vintage"; "classic"]
        then "Vintage-forward aesthetic with timeless details"
        else rationale
    | None => rationale
    end in
  match RecommendationRequest.purpose req with
  | Some purpose =>
      if PyStr.truthy purpose && PyStr.contains "wedding" (PyStr.lower purpose)
      then "Formal-appropriate with elevated finishing"
      else rationale
  | None => rationale
  end.

(** [str(p.get("_id")) if p and p.get("_id") else None] *)
Definition product_id_of (p : gmap string value) : option (option string) :=
  if dict_truthy p && truthy (get p "_id")
  then Some <$> py_str (get p "_id")
  else Some None.

(** The loop [for p in ...], with [out] the list accumulated so far. *)
Fixpoint rank (req : RecommendationRequest.t) (products : list (gmap string value))
    (out : list recommendation) : option (list recommendation) :=
  match products with
  | [] => Some out
  | p :: products =>
      cat ← candidate_category req p;
      comp ← auto_complete_customization (Customization.of_category cat) (Some p);
      let price := est_price comp in
      if over_budget req price then rank req products out
      else
        pid ← product_id_of p;
        let out := (out ++ [Recommendation pid (get p "title") (get p "category")
                              (config comp) (est_price comp) (choose_rationale req)])%list in
        if (3 <=? length out)%nat then Some out
        else rank req products out
  end.

(** The category keyword map of [chat], in the order it is written. *)
Definition cat_map : list (string * list string) := [
  ("suit", ["suit"; "tux"; "blazer"]);
  ("boots", ["boot"]);
  ("shoes", ["shoe"; "oxford"; "derby"; "loafer"]);
  ("hat", ["hat"; "fedora"; "trilby"]);
  ("belt", ["belt"]);
  ("shirt", ["shirt"; "oxford"]);
  ("trousers", ["trouser"; "pant"; "slacks"])
].

(** The lowered content of the last message whose role is ["user"]. *)
Definition last_user_text (req : ChatRequest.t) : string :=
  let user_texts :=
    map ChatMessage.content
        (List.filter (fun m => String.eqb (ChatMessage.role m) "user")
                     (ChatRequest.messages req)) in
  PyStr.lower (List.last user_texts "").

(** The loop over [cat_map.items()], left at the first match. *)
Fixpoint choose_category (table : list (string * list string)) (last : string)
  : option string :=
  match table with
  | [] => None
  | (k, kws) :: table =>
      if PyStr.any_in kws last then Some k else choose_category table last
  end.

Definition purpose_of (last : string) : string :=
  if PyStr.contains "wedding" last then "wedding"
  else if PyStr.contains "business" last then "business"
  else "casual".

(** The filter [recommendations] queries the catalog with. *)
Definition catalog_filter (req : RecommendationRequest.t) : gmap string value :=
  match RecommendationRequest.category req with
  | Some c => if PyStr.truthy c then {[ "category" := VStr c ]} else ∅
  | None => ∅
  end.

Section Catalog.

(** The collaborators that are not part of this program.
    [ObjectId s] is [None] when [bson] rejects [s] ([InvalidId]).
    [find_one oid] is the lookup [db["product"].find_one({"_id": oid})]:
    [None] when the call raises, [Some None] when nothing is stored under
    [oid].  [get_documents collection filt limit] lists a collection
    under a filter, up to a limit; the store is taken to answer (a call
    that raises is outside this model). *)
Variable ObjectId : string -> option string.
Variable find_one : string -> option (option (gmap string value)).
Variable get_documents :
  string -> gmap string value -> nat -> list (gmap string value).

(** "Load product if provided".  An exception raised inside the [try]
    block is caught and leaves [product = None]. *)
Definition load_product (cust : Customization.t)
  : option (option (gmap string value)) :=
  match Customization.product_id cust with
  | Some product_id =>
      if PyStr.truthy product_id then
        match ObjectId product_id with
        | None => Some None
        | Some oid =>
            match find_one oid with
            | None => Some None
            | Some None => Some None
            | Some (Some product) =>
                if dict_truthy product then
                  match product !! "_id" with
                  | None => Some None
                  | Some v =>
                      id ← py_str v;
                      Some (Some (<["id" := VStr id]> (delete "_id" product)))
                  end
                else Some (Some product)
            end
        end
      else Some None
  | None => Some None
  end.

Definition customize (cust : Customization.t) : option completion :=
  product ← load_product cust;
  auto_complete_customization cust product.

Definition recommendations (req : RecommendationRequest.t)
  : option (list recommendation) :=
  let filt := catalog_filter req in
  let products := get_documents "product" filt 50 in
  let products := or_seed products in
  rank req (take 6 products) [].

Definition chat (req : ChatRequest.t) : option chat_response :=
  let last := last_user_text req in
  let chosen := choose_category cat_map last in
  (* [if chosen:] every key of [cat_map] is a non-empty string *)
  match chosen with
  | Some k =>
      rec ← recommendations
              (RecommendationRequest.mk None (Some "vintage") None None (Some k) None);
      Some (ChatResponse
              ("I recommend these " ++ k ++
               " options. Would you like me to tailor the fit and fabric to your climate and occasion?")
              (Some rec))
  | None =>
      if PyStr.any_in ["wedding"; "business"; "casual"; "black tie"] last then
        let purpose := purpose_of last in
        rec ← recommendations
                (RecommendationRequest.mk (Some purpose) (Some "classic") None None None None);
        Some (ChatResponse ("Here are refined picks for " ++ purpose ++ ".") (Some rec))
      else
        Some (ChatResponse
                "Tell me what you're looking for (e.g., a navy suit for a wedding, leather boots for winter). I'll recommend configs and pricing."
                None)
  end.

End Catalog.

(** ** The rules as the specification words them *)

(** The text of a field; an unset field has none. *)
Definition text_of (v : value) : string :=
  match v with
  | VStr s => s
  | _ => ""
  end.

(** First match wins, tested in this order. *)
Definition fabric_bonus_table : list (string * float) :=
  [("cashmere", 0.6); ("wool", 0.25); ("leather", 0.35); ("linen", 0.15)]%float.

Fixpoint first_bonus (table : list (string * float)) (name : string) : float :=
  match table with
  | [] => 0%float
  | (kw, b) :: table => if PyStr.contains kw name then b else first_bonus table name
  end.

Definition fabric_bonus (fabric : string) : float :=
  first_bonus fabric_bonus_table (PyStr.lower fabric).

Definition pattern_bonus (pattern : string) : float :=
  if PyStr.mem (PyStr.lower pattern) ["pinstripe"; "herringbone"; "houndstooth"]
  then 0.1%float else 0%float.

Definition fit_bonus (fit : string) : float :=
  if PyStr.mem (PyStr.lower fit) ["tailored"; "slim"] then 0.05%float else 0%float.

(** "Start a multiplier at 1.0; apply, independently and additively ..." *)
Definition multiplier_spec (config : gmap string value) : float :=
  (1 + fabric_bonus (text_of (get config "fabric"))
     + pattern_bonus (text_of (get config "pattern"))
     + fit_bonus (text_of (get config "fit")))%float.

Definition mentions_wedding (req : RecommendationRequest.t) : bool :=
  match RecommendationRequest.purpose req with
  | Some purpose => PyStr.contains "wedding" (PyStr.lower purpose)
  | None => false
  end.

Definition vintage_or_classic (req : RecommendationRequest.t) : bool :=
  match RecommendationRequest.style req with
  | Some style => PyStr.mem (PyStr.lower style) ["vintage"; "classic"]
  | None => false
  end.

(** The rationale by priority: wedding purpose, then style, then default. *)
Definition rationale_spec (req : RecommendationRequest.t) : string :=
  if mentions_wedding req then "Formal-appropriate with elevated finishing"
  else if vintage_or_classic req then "Vintage-forward aesthetic with timeless details"
  else "Balanced choice with premium materials".

(** ** Well-formed inputs *)

(** A product whose base price, when it has one, is a number. *)
Definition priced (product : option (gmap string value)) : bool :=
  bool_decide (is_Some (as_number (base_price_of product))).

(** A catalog document as [Product] shapes it: the category is a string,
    the base price a number, the identifier an [ObjectId] (or a string). *)
Definition product_ok (p : gmap string value) : bool :=
  match p !! "category" with
  | None | Some (VStr _) => true
  | Some _ => false
  end
  && priced (Some p)
  && bool_decide (is_Some (product_id_of p)).

(** ** What one key holds after each fill step *)

(** The first element of the product's option list for [key]. *)
Definition first_option (p : gmap string value) (key : string) : option string :=
  match (match p !! (key ++ "s") with Some v => v | None => get p key end) with
  | VList (o :: _) => Some o
  | _ => None
  end.

Definition inherit_value (p : gmap string value) (key : string) (v : value) : value :=
  if truthy v then v
  else match first_option p key with
       | Some o => VStr o
       | None => v
       end.

Definition inherited (product : option (gmap string value)) (key : string)
    (v : value) : value :=
  match product with
  | Some p =>
      if dict_truthy p && bool_decide (key ∈ option_keys)
      then inherit_value p key v else v
  | None => v
  end.

(** The bundle's default for [key], when it has one. *)
Fixpoint assoc (key : string) (base : list (string * string)) : option string :=
  match base with
  | [] => None
  | (k, v) :: base => if String.eqb k key then Some v else assoc key base
  end.

Definition defaulted (base : list (string * string)) (key : string) (v : value)
  : value :=
  match assoc key base with
  | Some d => py_or v (VStr d)
  | None => v
  end.

Definition sized (cust : Customization.t) (key : string) (v : value) : value :=
  match Customization.measurements cust with
  | Some m =>
      match Measurement.chest_cm m with
      | Some chest =>
          if String.eqb key "size" && negb (truthy v) && PyFloat.truthy chest
          then VStr (size_band chest) else v
      | None => v
      end
  | None => v
  end.

(** Every bundle [defaults_get] can return. *)
Definition bundles : list (list (string * string)) :=
  [] :: map snd defaults_table.

(** A bundle names each key once, only keys of the field map, and gives
    each a non-empty default. *)
Definition bundle_ok (base : list (string * string)) : bool :=
  bool_decide (NoDup base.*1) &&
  forallb (fun kv => bool_decide (kv.1 ∈ ["color"; "fabric"; "fit"; "pattern"])
                     && PyStr.truthy kv.2) base.

(** ** Requests that differ in one field *)

Definition with_product_id (v : option string) (c : Customization.t)
  : Customization.t :=
  Customization.mk v (Customization.category c) (Customization.color c)
    (Customization.fabric c) (Customization.size c) (Customization.fit c)
    (Customization.pattern c) (Customization.preferences c)
    (Customization.auto c) (Customization.measurements c).

Definition with_auto (b : bool) (c : Customization.t) : Customization.t :=
  Customization.mk (Customization.product_id c) (Customization.category c)
    (Customization.color c) (Customization.fabric c) (Customization.size c)
    (Customization.fit c) (Customization.pattern c)
    (Customization.preferences c) b (Customization.measurements c).

(** The request with the option field named [key] set to [v]; [key] is
    one of [option_keys]. *)
Definition with_field (key : string) (v : option string) (c : Customization.t)
  : Customization.t :=
  let pick k old := if String.eqb key k then v else old in
  Customization.mk (Customization.product_id c) (Customization.category c)
    (pick "color" (Customization.color c))
    (pick "fabric" (Customization.fabric c))
    (pick "size" (Customization.size c))
    (pick "fit" (Customization.fit c))
    (pick "pattern" (Customization.pattern c))
    (Customization.preferences c) (Customization.auto c)
    (Customization.measurements c).

(** A value a text field can hold: [None] or a string. *)
Definition textual (v : value) : bool :=
  match v with
  | VNone | VStr _ => true
  | _ => false
  end.

(** The entry [recommendations] appends for a candidate it keeps. *)
Definition entry_of (req : RecommendationRequest.t) (p : gmap string value)
    (comp : completion) (pid : option string) : recommendation :=
  Recommendation pid (get p "title") (get p "category")
    (config comp) (est_price comp) (choose_rationale req).

(** The rest of the loop after a candidate was kept. *)
Definition kept (req : RecommendationRequest.t) (p : gmap string value)
    (comp : completion) (pid : option string)
    (products : list (gmap string value)) (out : list recommendation)
  : option (list recommendation) :=
  let out := (out ++ [entry_of req p comp pid])%list in
  if (3 <=? length out)%nat then Some out else rank req products out.

(** Every document the store lists is well formed. *)
Definition catalog_ok
    (get_documents : string -> gmap string value -> nat -> list (gmap string value))
  : Prop :=
  forall collection filt limit,
    Forall (fun p => product_ok p = true) (get_documents collection filt limit).

(** The requests [chat] sends to the ranker. *)
Definition category_request (chosen : string) : RecommendationRequest.t :=
  RecommendationRequest.mk None (Some "vintage") None None (Some chosen) None.

Definition purpose_request (purpose : string) : RecommendationRequest.t :=
  RecommendationRequest.mk (Some purpose) (Some "classic") None None None None.

Definition category_reply (chosen : string) : string :=
  "I recommend these " ++ chosen ++
  " options. Would you like me to tailor the fit and fabric to your climate and occasion?".

(** The keys of a dumped request. *)
Definition field_keys : gset string :=
  list_to_set ["product_id"; "category"; "color"; "fabric"; "size"; "fit";
               "pattern"; "preferences"; "auto"; "measurements"].


(** [blank_as_none v v']: the value [v] a field reaches when it starts
    blank, against the value [v'] it reaches when it starts absent. *)
Definition blank_as_none (v v' : value) : Prop :=
  (v = v' /\ v' <> VNone) \/ (v = VStr "" /\ v' = VNone).


(** ** Sample inputs *)

Definition chest_only (chest : float) : Measurement.t :=
  Measurement.mk None None (Some chest) None None None None.

Definition navy_product : gmap string value :=
  {[ "title" := VStr "Blazer"; "category" := VStr "suit";
     "base_price" := VNum 500; "colors" := VList ["navy"] ]}.

Definition red_suit : Customization.t :=
  Customization.mk None "suit" (Some "red") None (Some "") None None None false None.

Definition felt_hat : gmap string value :=
  {[ "title" := VStr "Fedora"; "category" := VStr "hat"; "base_price" := VNum 120 ]}.

Definition budget_request (budget : float) : RecommendationRequest.t :=
  RecommendationRequest.mk None None None (Some budget) None None.

Definition no_documents
  : string -> gmap string value -> nat -> list (gmap string value) :=
  fun _ _ _ => [].

Definition one_blazer
  : string -> gmap string value -> nat -> list (gmap string value) :=
  fun _ _ _ => [navy_product].

Definition wedding_suit : string := "I need a navy suit for a wedding".

Definition tux_chat : ChatRequest.t :=
  ChatRequest.mk [ChatMessage.mk "assistant" "How can I help?";
                  ChatMessage.mk "user" "A TUX for a black tie dinner"].


Definition measured_suit (chest : float) : Customization.t :=
  Customization.mk None "suit" None None None None None None false
    (Some (chest_only chest)).

Definition cashmere_pinstripe : Customization.t :=
  Customization.mk None "suit" None (Some "Cashmere Wool blend") None None
    (Some "Pinstripe") None false None.

Definition thousand : gmap string value := {[ "base_price" := VNum 1000 ]}.

Definition unknown_suit : Customization.t :=
  with_product_id (Some "not-an-id") (Customization.of_category "suit").

(** An [ObjectId] that rejects every string, and an empty collection. *)
Definition rejects_all : string -> option string := fun _ => None.

Definition finds_none : string -> option (option (gmap string value)) :=
  fun _ => Some None.

Definition beach_wedding : RecommendationRequest.t :=
  RecommendationRequest.mk (Some "Beach WEDDING") (Some "Vintage") None None None None.

(** ** main.py: the listing endpoints *)

(** What an endpoint with a [try ... except Exception] around its body
    gives: the returned body, or [HTTPException(status_code=500)]. *)
Inductive outcome (A : Type) :=
  | Returned (body : A)
  | HTTPException (status_code : nat).

Arguments Returned {A} body.
Arguments HTTPException {A} status_code.

(** [it["id"] = str(it.pop("_id")) if "_id" in it else None].  [None] when
    the text of the identifier is outside the model (see [py_str]). *)
Definition expose_id (it : gmap string value) : option (gmap string value) :=
  match it !! "_id" with
  | Some v =>
      id ← py_str v;
      Some (<["id" := VStr id]> (delete "_id" it))
  | None => Some (<["id" := VNone]> it)
  end.

(** [filt = {}; if category: filt["category"] = category] *)
Definition category_filter (category : option string) : gmap string value :=
  match category with
  | Some c => if PyStr.truthy c then {[ "category" := VStr c ]} else ∅
  | None => ∅
  end.

Section Listing.

(** Here a call of [get_documents] may raise: [None].  The documents it
    returns are distinct objects, so the loop over them is a map. *)
Variable get_documents :
  string -> gmap string value -> Z -> option (list (gmap string value)).

(** The body [{"items": items}] of the response. *)
Definition list_products (category : option string) (limit : Z)
  : option (outcome (list (gmap string value))) :=
  let filt := category_filter category in
  match get_documents "product" filt limit with
  | None => Some (HTTPException 500)
  | Some items => Returned <$> mapM expose_id items
  end.

Definition list_orders (limit : Z)
  : option (outcome (list (gmap string value))) :=
  match get_documents "order" ∅ limit with
  | None => Some (HTTPException 500)
  | Some items => Returned <$> mapM expose_id items
  end.

End Listing.

(** ** Measures used to state further properties *)

(** The place of a size in the order XS, S, M, L, XL. *)
Definition size_rank (size : string) : nat :=
  if String.eqb size "XS" then 0
  else if String.eqb size "S" then 1
  else if String.eqb size "M" then 2
  else if String.eqb size "L" then 3
  else 4.

(** The multiplier the three pricing steps reach from 1.0. *)
Definition multiplier_of (result : gmap string value) : option float :=
  m ← fabric_step result 1%float;
  m ← pattern_step result m;
  fit_step result m.

(** No budget to filter on: unset, or zero. *)
Definition no_budget (req : RecommendationRequest.t) : bool :=
  match RecommendationRequest.budget req with
  | Some b => negb (PyFloat.truthy b)
  | None => true
  end.

(** The candidates [recommendations] loops over. *)
Definition candidates
    (get_documents : string -> gmap string value -> nat -> list (gmap string value))
    (req : RecommendationRequest.t) : list (gmap string value) :=
  take 6 (or_seed (get_documents "product" (catalog_filter req) 50)).

(** A candidate [p] was kept and gave the entry [r]. *)
Definition entry_for (req : RecommendationRequest.t) (p : gmap string value)
    (r : recommendation) : Prop :=
  exists cat comp pid,
    candidate_category req p = Some cat /\
    auto_complete_customization (Customization.of_category cat) (Some p) = Some comp /\
    product_id_of p = Some pid /\
    over_budget req (est_price comp) = false /\
    r = entry_of req p comp pid.

Definition occasion_keywords : list string :=
  ["wedding"; "business"; "casual"; "black tie"].

Definition purpose_reply (purpose : string) : string :=
  "Here are refined picks for " ++ purpose ++ ".".

Definition prompt_reply : string :=
  "Tell me what you're looking for (e.g., a navy suit for a wedding, leather boots for winter). I'll recommend configs and pricing.".

Definition vintage_rationale : string :=
  "Vintage-forward aesthetic with timeless details".

Definition formal_rationale : string :=
  "Formal-appropriate with elevated finishing".

Definition user_says (content : string) : ChatMessage.t :=
  ChatMessage.mk "user" content.

(** The items of a listing: a document [it] and the item [o] returned for
    it, with the [_id] moved to [id] as text. *)
Definition exposed (it o : gmap string value) : Prop :=
  o !! "_id" = None /\
  o !! "id" = Some (default VNone (VStr <$> (it !! "_id" ≫= py_str))) /\
  (forall k, k <> "id" -> k <> "_id" -> o !! k = it !! k).

(** A document whose identifier has a text in the model, or none. *)
Definition id_known (it : gmap string value) : Prop :=
  match it !! "_id" with
  | Some v => is_Some (py_str v)
  | None => True
  end.

(** ** More sample inputs *)

Definition shadowed_colors : gmap string value :=
  {[ "colors" := VNone; "color" := VList ["red"]; "base_price" := VNum 100 ]}.

Definition stored_blazer : gmap string value :=
  <["_id" := VId "64b7f0c2a1d3e4f5a6b7c8d9"]> navy_product.

Definition blazer_request : Customization.t :=
  with_product_id (Some "64b7f0c2a1d3e4f5a6b7c8d9") (Customization.of_category "suit").

Definition accepts_all : string -> option string := fun s => Some s.

Definition finds_blazer : string -> option (option (gmap string value)) :=
  fun _ => Some (Some stored_blazer).

Definition lookup_raises : string -> option (option (gmap string value)) :=
  fun _ => None.

Definition no_category_value : gmap string value :=
  {[ "title" := VStr "Untitled"; "category" := VNone; "base_price" := VNum 10 ]}.

Definition one_untitled
  : string -> gmap string value -> nat -> list (gmap string value) :=
  fun _ _ _ => [no_category_value].

Definition any_request : RecommendationRequest.t :=
  RecommendationRequest.mk None None None None None None.

Definition black_tie_chat : ChatRequest.t :=
  ChatRequest.mk [user_says "Something for a Black Tie gala"].

Definition greeting_chat : ChatRequest.t :=
  ChatRequest.mk [user_says "hello there"].

Definition assistant_only_chat : ChatRequest.t :=
  ChatRequest.mk [ChatMessage.mk "assistant" "Looking for a suit?"].

Definition lists_blazer
  : string -> gmap string value -> Z -> option (list (gmap string value)) :=
  fun _ _ _ => Some [stored_blazer].

Definition olive_jacket : gmap string value :=
  {[ "colors" := VList ["olive"; "tan"]; "base_price" := VNum 200 ]}.

(** ** What the loop keeps *)

(** The test the loop makes on a candidate it can complete: the price is
    not over the budget. *)
Definition within_budget (req : RecommendationRequest.t) (p : gmap string value)
  : bool :=
  match candidate_category req p with
  | Some cat =>
      match auto_complete_customization (Customization.of_category cat) (Some p) with
      | Some comp => negb (over_budget req (est_price comp))
      | None => false
      end
  | None => false
  end.

(** A text of ASCII characters only.  On such a text [PyStr.lower] is
    [str.lower] and [PyStr.contains] is [in]. *)
Definition ascii_text (s : string) : bool :=
  forallb (fun c => (nat_of_ascii c <? 128)%nat) (list_ascii_of_string s).

(** A hat with nothing but a price: its estimated price is the base price
    rounded, the multiplier staying at 1.0. *)
Definition hat_at (price : float) : gmap string value :=
  {[ "title" := VStr "Fedora"; "category" := VStr "hat"; "base_price" := VNum price ]}.

Definition free_hat : gmap string value :=
  {[ "title" := VStr "Fedora"; "category" := VStr "hat"; "base_price" := VStr "free" ]}.

(** * Facts about the model *)

(** ** The order on floats *)

Module FloatOrder.

Lemma SFcompare_antisym x y c :
  SFcompare x y = Some c -> SFcompare y x = Some (CompOpp c).
Proof.
  destruct x as [sx|sx| |sx mx ex], y as [sy|sy| |sy my ey]; simpl;
    try discriminate; intros [= <-];
    try (destruct sx; try destruct sy; reflexivity);
    try (destruct sy; reflexivity).
  f_equal.
  change (Pos.compare_cont Eq mx my) with (mx ?= my)%positive.
  change (Pos.compare_cont Eq my mx) with (my ?= mx)%positive.
  rewrite (Z.compare_antisym ex ey), (Pos.compare_antisym mx my).
  destruct sx, sy; simpl; try reflexivity;
    destruct (ex ?= ey)%Z; simpl; try reflexivity;
    destruct (mx ?= my)%positive; reflexivity.
Qed.

Ltac order_cases :=
  repeat match goal with
  | |- context [(?a ?= ?b)%Z] => destruct (Z.compare_spec a b)
  | H : context [(?a ?= ?b)%Z] |- _ => destruct (Z.compare_spec a b)
  | |- context [(?a ?= ?b)%positive] => destruct (Pos.compare_spec a b)
  | H : context [(?a ?= ?b)%positive] |- _ => destruct (Pos.compare_spec a b)
  end; simpl in *; try discriminate; try reflexivity; try lia.

Lemma SFleb_trans x y z :
  SFleb x y = true -> SFleb y z = true -> SFleb x z = true.
Proof.
  unfold SFleb.
  destruct x as [sx|sx| |sx mx ex], y as [sy|sy| |sy my ey],
           z as [sz|sz| |sz mz ez]; simpl;
    try discriminate; try reflexivity;
    try (destruct sx; try discriminate; try reflexivity);
    try (destruct sy; try discriminate; try reflexivity);
    try (destruct sz; try discriminate; try reflexivity).
  all: change (Pos.compare_cont Eq) with Pos.compare.
  all: order_cases.
Qed.

Lemma SFltb_irrefl x : SFltb x x = false.
Proof.
  unfold SFltb. destruct (SFcompare x x) as [c|] eqn:E; [|reflexivity].
  pose proof (SFcompare_antisym _ _ _ E) as E'. rewrite E in E'.
  destruct c; try reflexivity; discriminate.
Qed.

Lemma ltb_irrefl (x : float) : (x <? x)%float = false.
Proof. rewrite FloatAxioms.ltb_spec. apply SFltb_irrefl. Qed.

Lemma leb_trans (x y z : float) :
  (x <=? y)%float = true -> (y <=? z)%float = true -> (x <=? z)%float = true.
Proof. rewrite !FloatAxioms.leb_spec. apply SFleb_trans. Qed.

Lemma leb_not_ltb (x y : float) :
  (x <=? y)%float = true -> (y <? x)%float = false.
Proof.
  rewrite FloatAxioms.leb_spec, FloatAxioms.ltb_spec. unfold SFleb, SFltb.
  destruct (SFcompare (Prim2SF x) (Prim2SF y)) as [c|] eqn:E; [|discriminate].
  rewrite (SFcompare_antisym _ _ _ E). destruct c; simpl; congruence.
Qed.

Lemma eqb_leb (x y : float) :
  (x =? y)%float = true -> (x <=? y)%float = true.
Proof.
  rewrite FloatAxioms.eqb_spec, FloatAxioms.leb_spec. unfold SFeqb, SFleb.
  destruct (SFcompare (Prim2SF x) (Prim2SF y)) as [[]|]; congruence.
Qed.

Lemma ltb_leb (x y : float) :
  (x <? y)%float = true -> (x <=? y)%float = true.
Proof.
  rewrite FloatAxioms.ltb_spec, FloatAxioms.leb_spec. unfold SFltb, SFleb.
  destruct (SFcompare (Prim2SF x) (Prim2SF y)) as [[]|]; congruence.
Qed.
End FloatOrder.

(** ** Dictionaries, key by key *)

Lemma eqb_decide (a b : string) : String.eqb a b = bool_decide (a = b).
Proof.
  destruct (String.eqb_spec a b).
  - by rewrite bool_decide_true.
  - by rewrite bool_decide_false.
Qed.

Lemma get_insert (m : gmap string value) k v k' :
  get (<[k:=v]> m) k' = if String.eqb k k' then v else get m k'.
Proof.
  unfold get. destruct (String.eqb_spec k k') as [->|Hne].
  - by rewrite lookup_insert_eq.
  - by rewrite lookup_insert_ne.
Qed.

Lemma get_inherit_key p (r : gmap string value) key k :
  get (inherit_key p r key) k =
  if String.eqb key k then inherit_value p key (get r k) else get r k.
Proof.
  unfold inherit_key, inherit_value, first_option.
  destruct (String.eqb_spec key k) as [->|Hne].
  - destruct (truthy (get r k)); simpl; [done|].
    destruct (match p !! (k ++ "s") with Some v => v | None => get p k end)
      as [| | | |[|o l]| |]; try done.
    by rewrite get_insert, String.eqb_refl.
  - destruct (truthy (get r key)); simpl; [done|].
    destruct (match p !! (key ++ "s") with Some v => v | None => get p key end)
      as [| | | |[|o l]| |]; try done.
    rewrite get_insert. by destruct (String.eqb_spec key k).
Qed.

Lemma get_inherit_fold p keys : forall (r : gmap string value) k,
  NoDup keys ->
  get (foldl (inherit_key p) r keys) k =
  if bool_decide (k ∈ keys) then inherit_value p k (get r k) else get r k.
Proof.
  induction keys as [|key keys IH]; intros r k Hnd; simpl.
  - done.
  - apply list.NoDup_cons in Hnd as [Hnotin Hnd].
    rewrite IH by done. rewrite get_inherit_key.
    destruct (String.eqb_spec key k) as [->|Hne].
    + rewrite (bool_decide_false (k ∈ keys)) by done.
      rewrite bool_decide_true by (by left). done.
    + destruct (decide (k ∈ keys)) as [Hin|Hout].
      * rewrite !bool_decide_true; [done| by right | done].
      * rewrite !bool_decide_false; [done| | done].
        rewrite elem_of_cons. intros [->|?]; done.
Qed.

Lemma option_keys_NoDup : NoDup option_keys.
Proof. apply (bool_decide_eq_true_1 (NoDup option_keys)). vm_compute. reflexivity. Qed.

Lemma get_inherit_options product (r : gmap string value) k :
  get (inherit_options product r) k = inherited product k (get r k).
Proof.
  unfold inherit_options, inherited. destruct product as [p|]; [|done].
  destruct (dict_truthy p); [|done].
  rewrite get_inherit_fold by apply option_keys_NoDup. done.
Qed.

Lemma get_apply_defaults base : forall (r : gmap string value) k,
  NoDup base.*1 ->
  get (apply_defaults base r) k = defaulted base k (get r k).
Proof.
  unfold apply_defaults, defaulted.
  induction base as [|[k0 d] base IH]; intros r k Hnd; simpl.
  - done.
  - apply list.NoDup_cons in Hnd as [Hnotin Hnd].
    rewrite IH by done. rewrite get_insert.
    destruct (String.eqb_spec k0 k) as [->|Hne]; [|done].
    assert (assoc k base = None) as ->; [|done].
    clear -Hnotin. induction base as [|[k1 d1] base IH]; simpl in *; [done|].
    rewrite not_elem_of_cons in Hnotin. destruct Hnotin as [Hk Hnotin].
    destruct (String.eqb_spec k1 k) as [->|Hne]; [done|].
    by apply IH.
Qed.

Lemma get_infer_size cust (r : gmap string value) k :
  get (infer_size cust r) k = sized cust k (get r k).
Proof.
  unfold infer_size, sized.
  destruct (Customization.measurements cust) as [m|]; [|done].
  destruct (Measurement.chest_cm m) as [chest|]; [|done].
  destruct (String.eqb_spec k "size") as [->|Hne]; simpl.
  - destruct (negb (truthy (get r "size")) && PyFloat.truthy chest); [|done].
    by rewrite get_insert.
  - destruct (negb (truthy (get r "size")) && PyFloat.truthy chest); [|done].
    rewrite get_insert. destruct (String.eqb_spec "size" k); congruence.
Qed.

Lemma defaults_get_cases category : defaults_get category ∈ bundles.
Proof.
  unfold defaults_get. destruct (defaults !! category) as [b|] eqn:E; simpl.
  - unfold defaults in E. apply elem_of_list_to_map_2 in E.
    unfold bundles. right. apply (list_elem_of_fmap_2 snd) in E. exact E.
  - left.
Qed.

Lemma bundles_ok : Forall (fun b => bundle_ok b = true) bundles.
Proof. vm_compute. repeat constructor. Qed.

Lemma defaults_get_ok category : bundle_ok (defaults_get category) = true.
Proof.
  pose proof bundles_ok as H. rewrite list.Forall_forall in H.
  apply H, defaults_get_cases.
Qed.

Lemma get_prefill cust product k :
  get (prefill cust product) k =
  defaulted (defaults_get (Customization.category cust)) k
    (inherited product k (get (model_dump cust) k)).
Proof.
  unfold prefill. rewrite get_apply_defaults, get_inherit_options; [done|].
  pose proof (defaults_get_ok (Customization.category cust)) as H.
  unfold bundle_ok in H. apply andb_true_iff in H as [H _].
  by apply bool_decide_eq_true in H.
Qed.

Lemma get_fill cust product k :
  get (fill cust product) k =
  sized cust k (get (prefill cust product) k).
Proof. unfold fill. by rewrite get_infer_size. Qed.

(** ** The filled field map and the price *)

Lemma get_empty k : get ∅ k = VNone.
Proof. unfold get. by rewrite lookup_empty. Qed.

Lemma get_model_dump cust k :
  get (model_dump cust) k =
  if String.eqb "product_id" k then of_opt_str (Customization.product_id cust)
  else if String.eqb "category" k then VStr (Customization.category cust)
  else if String.eqb "color" k then of_opt_str (Customization.color cust)
  else if String.eqb "fabric" k then of_opt_str (Customization.fabric cust)
  else if String.eqb "size" k then of_opt_str (Customization.size cust)
  else if String.eqb "fit" k then of_opt_str (Customization.fit cust)
  else if String.eqb "pattern" k then of_opt_str (Customization.pattern cust)
  else if String.eqb "preferences" k then of_opt_str (Customization.preferences cust)
  else if String.eqb "auto" k then VBool (Customization.auto cust)
  else if String.eqb "measurements" k
       then of_opt_measurement (Customization.measurements cust)
  else VNone.
Proof. unfold model_dump. rewrite !get_insert, get_empty. done. Qed.

Lemma textual_of_opt_str o : textual (of_opt_str o) = true.
Proof. by destruct o. Qed.

Lemma option_keys_cases k :
  k ∈ option_keys ->
  k = "color" \/ k = "fabric" \/ k = "size" \/ k = "fit" \/ k = "pattern".
Proof.
  unfold option_keys. rewrite !elem_of_cons, elem_of_nil. tauto.
Qed.

Lemma textual_dump cust k :
  k ∈ option_keys -> textual (get (model_dump cust) k) = true.
Proof.
  intros Hk. rewrite get_model_dump.
  destruct (option_keys_cases k Hk) as [->|[->|[->|[->| ->]]]]; simpl;
    apply textual_of_opt_str.
Qed.

Lemma textual_inherited product k v :
  textual v = true -> textual (inherited product k v) = true.
Proof.
  intros Hv. unfold inherited, inherit_value. destruct product as [p|]; [|done].
  destruct (dict_truthy p && bool_decide (k ∈ option_keys)); [|done].
  destruct (truthy v); [done|]. by destruct (first_option p k).
Qed.

Lemma textual_defaulted base k v :
  textual v = true -> textual (defaulted base k v) = true.
Proof.
  intros Hv. unfold defaulted, py_or. destruct (assoc k base); [|done].
  by destruct (truthy v).
Qed.

Lemma textual_sized cust k v :
  textual v = true -> textual (sized cust k v) = true.
Proof.
  intros Hv. unfold sized.
  destruct (Customization.measurements cust) as [m|]; [|done].
  destruct (Measurement.chest_cm m) as [c|]; [|done].
  by destruct (String.eqb k "size" && negb (truthy v) && PyFloat.truthy c).
Qed.

Lemma textual_fill cust product k :
  k ∈ option_keys -> textual (get (fill cust product) k) = true.
Proof.
  intros Hk. rewrite get_fill, get_prefill.
  by apply textual_sized, textual_defaulted, textual_inherited, textual_dump.
Qed.

Lemma multiplier_steps (r : gmap string value) :
  textual (get r "fabric") = true ->
  textual (get r "pattern") = true ->
  textual (get r "fit") = true ->
  (m ← fabric_step r 1%float; m ← pattern_step r m; fit_step r m)
  = Some (multiplier_spec r).
Proof.
  unfold fabric_step, pattern_step, fit_step, multiplier_spec.
  unfold fabric_bonus, pattern_bonus, fit_bonus.
  destruct (get r "fabric") as [| | |fab| | |]; try discriminate;
  destruct (get r "pattern") as [| | |pat| | |]; try discriminate;
  destruct (get r "fit") as [| | |ft| | |]; try discriminate; intros _ _ _;
  unfold text_of, truthy, PyStr.truthy, str_lower.
  all: try (destruct (String.eqb_spec fab "") as [->|_]);
       try (destruct (String.eqb_spec pat "") as [->|_]);
       try (destruct (String.eqb_spec ft "") as [->|_]).
  all: cbn [negb mbind option_bind first_bonus fabric_bonus_table].
  all: try change (PyStr.lower "") with "".
  all: repeat match goal with
       | |- context [PyStr.contains ?a ""] =>
           let v := eval vm_compute in (PyStr.contains a "") in
           change (PyStr.contains a "") with v
       | |- context [PyStr.mem "" ?l] =>
           let v := eval vm_compute in (PyStr.mem "" l) in
           change (PyStr.mem "" l) with v
       end.
  all: repeat match goal with
       | |- context [PyStr.contains ?a ?b] => destruct (PyStr.contains a b)
       | |- context [PyStr.mem ?a ?b] => destruct (PyStr.mem a b)
       end.
  all: reflexivity.
Qed.

Lemma elem_option_keys k :
  k = "color" \/ k = "fabric" \/ k = "size" \/ k = "fit" \/ k = "pattern" ->
  k ∈ option_keys.
Proof.
  unfold option_keys. rewrite !elem_of_cons, elem_of_nil. tauto.
Qed.

Lemma estimate_price_spec product (r : gmap string value) base :
  textual (get r "fabric") = true ->
  textual (get r "pattern") = true ->
  textual (get r "fit") = true ->
  as_number (base_price_of product) = Some base ->
  estimate_price product r = Some (PyFloat.round2 (base * multiplier_spec r)).
Proof.
  intros Hf Hp Ht Hb. unfold estimate_price.
  pose proof (multiplier_steps r Hf Hp Ht) as Hm.
  destruct (fabric_step r 1) as [m1|]; [|discriminate]. simpl in *.
  destruct (pattern_step r m1) as [m2|]; [|discriminate]. simpl in *.
  rewrite Hm. simpl. unfold mul_float. rewrite Hb. done.
Qed.

Lemma priced_number product :
  priced product = true -> exists base, as_number (base_price_of product) = Some base.
Proof.
  unfold priced. intros H. apply bool_decide_eq_true_1 in H. destruct H as [b Hb].
  by exists b.
Qed.

Lemma auto_complete_spec cust product base :
  as_number (base_price_of product) = Some base ->
  auto_complete_customization cust product =
  Some (Completion (fill cust product)
          (PyFloat.round2 (base * multiplier_spec (fill cust product)))).
Proof.
  intros Hb. unfold auto_complete_customization.
  rewrite (estimate_price_spec product _ base); [done| | | |done];
    apply textual_fill, elem_option_keys; tauto.
Qed.

Lemma dict_truthy_lookup (p : gmap string value) k v :
  p !! k = Some v -> dict_truthy p = true.
Proof.
  intros H. unfold dict_truthy. rewrite bool_decide_false; [done|].
  intros Hd. assert (k ∈ dom p) as Hk by (apply elem_of_dom; eauto).
  rewrite Hd in Hk. by apply not_elem_of_empty in Hk.
Qed.


(** ** Size bands *)

Import FloatOrder.

Lemma above_truthy (lo c : float) :
  (lo <=? 0)%float = false -> (lo <=? c)%float = true -> PyFloat.truthy c = true.
Proof.
  intros Hlo Hc. unfold PyFloat.truthy.
  destruct (c =? 0)%float eqn:E; [|done].
  apply eqb_leb in E. rewrite (leb_trans _ _ _ Hc E) in Hlo. discriminate.
Qed.

Lemma below_band (lo hi c : float) :
  (lo <=? hi)%float = true -> (hi <=? c)%float = true -> (c <? lo)%float = false.
Proof. intros H1 H2. apply leb_not_ltb. by apply (leb_trans _ hi). Qed.

Lemma size_band_spec (c : float) :
  ((c <? 90)%float = true -> size_band c = "XS") /\
  ((90 <=? c)%float = true -> (c <? 96)%float = true -> size_band c = "S") /\
  ((96 <=? c)%float = true -> (c <? 102)%float = true -> size_band c = "M") /\
  ((102 <=? c)%float = true -> (c <? 110)%float = true -> size_band c = "L") /\
  ((110 <=? c)%float = true -> size_band c = "XL").
Proof.
  unfold size_band. repeat split.
  - by intros ->.
  - intros Hlo ->. by rewrite (below_band 90 90 c).
  - intros Hlo ->. by rewrite (below_band 90 96 c), (below_band 96 96 c).
  - intros Hlo ->.
    by rewrite (below_band 90 102 c), (below_band 96 102 c), (below_band 102 102 c).
  - intros Hlo.
    by rewrite (below_band 90 110 c), (below_band 96 110 c),
               (below_band 102 110 c), (below_band 110 110 c).
Qed.

Lemma valid_chest cust m c :
  Customization.valid cust = true ->
  Customization.measurements cust = Some m ->
  Measurement.chest_cm m = Some c ->
  (60 <=? c)%float = true.
Proof.
  unfold Customization.valid, Measurement.valid. intros Hv Hm Hc.
  rewrite Hm, Hc in Hv. simpl in Hv.
  repeat (apply andb_true_iff in Hv as [Hv ?]).
  repeat match goal with H : _ && _ = true |- _ => apply andb_true_iff in H as [? ?] end.
  done.
Qed.


(** ** Which keys a field map has *)

Lemma map_eq_get (m1 m2 : gmap string value) :
  dom m1 = dom m2 -> (forall k, get m1 k = get m2 k) -> m1 = m2.
Proof.
  intros Hd Hg. apply map_eq. intros k. specialize (Hg k). unfold get in Hg.
  destruct (m1 !! k) as [v1|] eqn:E1, (m2 !! k) as [v2|] eqn:E2; simpl in Hg.
  - by subst.
  - apply (elem_of_dom_2 m1) in E1. rewrite Hd in E1.
    apply elem_of_dom in E1 as [? ?]. congruence.
  - apply (elem_of_dom_2 m2) in E2. rewrite <- Hd in E2.
    apply elem_of_dom in E2 as [? ?]. congruence.
  - done.
Qed.

Lemma dom_insert_in (m : gmap string value) k v :
  k ∈ dom m -> dom (<[k:=v]> m) = dom m.
Proof. intros Hk. rewrite dom_insert_L. apply subseteq_union_1_L. by apply singleton_subseteq_l. Qed.

Lemma dom_inherit_key p (r : gmap string value) key :
  key ∈ dom r -> dom (inherit_key p r key) = dom r.
Proof.
  intros Hk. unfold inherit_key. destruct (negb (truthy (get r key))); [|done].
  destruct (match p !! (key ++ "s") with Some v => v | None => get p key end)
    as [| | | |[|o l]| |]; try done.
  by apply dom_insert_in.
Qed.

Lemma dom_inherit_fold p keys : forall (r : gmap string value),
  Forall (fun key => key ∈ dom r) keys ->
  dom (foldl (inherit_key p) r keys) = dom r.
Proof.
  induction keys as [|key keys IH]; intros r Hk; [done|].
  apply list.Forall_cons in Hk as [Hkey Hk]. cbn [foldl].
  rewrite IH; rewrite dom_inherit_key; done.
Qed.

Lemma dom_apply_defaults base : forall (r : gmap string value),
  Forall (fun kv => kv.1 ∈ dom r) base ->
  dom (apply_defaults base r) = dom r.
Proof.
  unfold apply_defaults.
  induction base as [|[k d] base IH]; intros r Hk; [done|].
  apply list.Forall_cons in Hk as [Hkey Hk]. cbn [foldl].
  rewrite IH; rewrite dom_insert_in; done.
Qed.

Lemma dom_infer_size cust (r : gmap string value) :
  "size" ∈ dom r -> dom (infer_size cust r) = dom r.
Proof.
  intros Hk. unfold infer_size.
  destruct (Customization.measurements cust) as [m|]; [|done].
  destruct (Measurement.chest_cm m) as [c|]; [|done].
  destruct (negb (truthy (get r "size")) && PyFloat.truthy c); [|done].
  by apply dom_insert_in.
Qed.

Lemma dom_model_dump cust : dom (model_dump cust) = field_keys.
Proof.
  unfold model_dump. rewrite !dom_insert_L, dom_empty_L.
  unfold field_keys. cbn [list_to_set foldr]. done.
Qed.

Lemma field_keys_elem k :
  k ∈ ["product_id"; "category"; "color"; "fabric"; "size"; "fit";
       "pattern"; "preferences"; "auto"; "measurements"] ->
  k ∈ field_keys.
Proof. intros H. unfold field_keys. by apply elem_of_list_to_set. Qed.

Lemma option_keys_fields k : k ∈ option_keys -> k ∈ field_keys.
Proof.
  intros H. apply field_keys_elem. unfold option_keys in H.
  rewrite !elem_of_cons, elem_of_nil in *. tauto.
Qed.

Lemma bundle_keys_fields base :
  bundle_ok base = true -> Forall (fun kv => kv.1 ∈ field_keys) base.
Proof.
  unfold bundle_ok. intros H. apply andb_true_iff in H as [_ H].
  rewrite forallb_forall in H. apply list.Forall_forall. intros kv Hkv.
  apply list_elem_of_In in Hkv. apply H in Hkv. apply andb_true_iff in Hkv as [Hkv _].
  apply bool_decide_eq_true_1 in Hkv. apply field_keys_elem.
  rewrite !elem_of_cons, elem_of_nil in *. tauto.
Qed.

Lemma dom_inherit_options product (r : gmap string value) :
  dom r = field_keys -> dom (inherit_options product r) = dom r.
Proof.
  intros Hd. unfold inherit_options. destruct product as [p|]; [|done].
  destruct (dict_truthy p); [|done].
  apply dom_inherit_fold. apply list.Forall_forall. intros k Hk.
  rewrite Hd. by apply option_keys_fields.
Qed.

Lemma dom_fill cust product : dom (fill cust product) = field_keys.
Proof.
  unfold fill, prefill.
  assert (dom (inherit_options product (model_dump cust)) = field_keys) as H1.
  { rewrite dom_inherit_options; apply dom_model_dump. }
  assert (dom (apply_defaults (defaults_get (Customization.category cust))
                 (inherit_options product (model_dump cust))) = field_keys) as H2.
  { rewrite dom_apply_defaults; [done|]. rewrite H1.
    apply bundle_keys_fields, defaults_get_ok. }
  rewrite dom_infer_size; [done|]. rewrite H2.
  apply field_keys_elem. rewrite !elem_of_cons. tauto.
Qed.

(** ** Requests that differ in a key the engine never fills *)

Lemma get_fill_steps cust product k :
  get (fill cust product) k =
  sized cust k
    (defaulted (defaults_get (Customization.category cust)) k
       (inherited product k (get (model_dump cust) k))).
Proof. by rewrite get_fill, get_prefill. Qed.

Lemma assoc_bundle base k :
  bundle_ok base = true -> k ∉ option_keys -> assoc k base = None.
Proof.
  intros Hb Hk. unfold bundle_ok in Hb. apply andb_true_iff in Hb as [_ Hb].
  rewrite forallb_forall in Hb.
  induction base as [|[k0 d] base IH]; [done|]. cbn [assoc].
  destruct (String.eqb_spec k0 k) as [->|Hne].
  - exfalso. apply Hk.
    specialize (Hb (k, d) (or_introl eq_refl)). apply andb_true_iff in Hb as [Hb _].
    apply bool_decide_eq_true_1 in Hb. cbn [fst] in Hb. unfold option_keys.
    rewrite !elem_of_cons, elem_of_nil in *. tauto.
  - apply IH. intros kv Hkv. apply Hb. by right.
Qed.

(** A key outside [option_keys] keeps the value it was dumped with. *)
Lemma get_fill_passive cust product k :
  k ∉ option_keys -> get (fill cust product) k = get (model_dump cust) k.
Proof.
  intros Hk. rewrite get_fill_steps. unfold sized, defaulted, inherited.
  rewrite (assoc_bundle _ k (defaults_get_ok _) Hk).
  assert (String.eqb k "size" = false) as Hs.
  { destruct (String.eqb_spec k "size") as [->|]; [|done].
    exfalso. apply Hk. unfold option_keys. rewrite !elem_of_cons. tauto. }
  rewrite Hs. cbn [andb].
  rewrite (bool_decide_false (k ∈ option_keys)) by done.
  destruct product as [p|]; [rewrite andb_false_r|];
    destruct (Customization.measurements cust) as [m|];
    try destruct (Measurement.chest_cm m); done.
Qed.

Lemma multiplier_spec_ext (r r' : gmap string value) :
  text_of (get r "fabric") = text_of (get r' "fabric") ->
  text_of (get r "pattern") = text_of (get r' "pattern") ->
  text_of (get r "fit") = text_of (get r' "fit") ->
  multiplier_spec r = multiplier_spec r'.
Proof. unfold multiplier_spec. by intros -> -> ->. Qed.

(** Two requests that differ in one key outside [option_keys]: the filled
    maps differ in that key only. *)
Lemma fill_passive_change cust cust' product k0 v :
  k0 ∈ field_keys -> k0 ∉ option_keys ->
  Customization.category cust' = Customization.category cust ->
  Customization.measurements cust' = Customization.measurements cust ->
  (forall k, get (model_dump cust') k =
             if String.eqb k0 k then v else get (model_dump cust) k) ->
  fill cust' product = <[k0 := v]> (fill cust product).
Proof.
  intros Hin Hout Hcat Hm Hdump. apply map_eq_get.
  - rewrite dom_insert_in; rewrite !dom_fill; done.
  - intros k. rewrite get_insert.
    destruct (String.eqb_spec k0 k) as [<-|Hne].
    + rewrite get_fill_passive by done. rewrite Hdump. by rewrite String.eqb_refl.
    + rewrite !get_fill_steps, Hdump, Hcat. unfold sized. rewrite Hm.
      destruct (String.eqb_spec k0 k); done.
Qed.

Lemma passive_not_option k :
  k = "auto" \/ k = "product_id" -> k ∉ option_keys.
Proof.
  unfold option_keys. rewrite !elem_of_cons, elem_of_nil.
  intros [->| ->] H; repeat (destruct H as [H|H]; [discriminate|]); done.
Qed.

Ltac dump_fields :=
  cbn [Customization.product_id Customization.category Customization.color
       Customization.fabric Customization.size Customization.fit
       Customization.pattern Customization.preferences Customization.auto
       Customization.measurements].

Lemma get_dump_with_auto b cust k :
  get (model_dump (with_auto b cust)) k =
  if String.eqb "auto" k then VBool b else get (model_dump cust) k.
Proof.
  rewrite !get_model_dump. unfold with_auto. dump_fields.
  destruct (String.eqb_spec "auto" k) as [<-|Hne]; [reflexivity|].
  repeat match goal with
  | |- context [String.eqb ?a k] => destruct (String.eqb_spec a k); [try done|]
  end; done.
Qed.

Lemma get_dump_with_product_id o cust k :
  get (model_dump (with_product_id o cust)) k =
  if String.eqb "product_id" k then of_opt_str o else get (model_dump cust) k.
Proof.
  rewrite !get_model_dump. unfold with_product_id. dump_fields.
  destruct (String.eqb_spec "product_id" k) as [<-|Hne]; reflexivity.
Qed.

Lemma passive_price cust cust' product k0 v :
  k0 ∉ option_keys ->
  fill cust' product = <[k0 := v]> (fill cust product) ->
  multiplier_spec (fill cust' product) = multiplier_spec (fill cust product).
Proof.
  intros Hk ->. apply multiplier_spec_ext; rewrite get_insert;
    match goal with
    | |- context [String.eqb k0 ?k] =>
        destruct (String.eqb_spec k0 k) as [->|_]; [|done]
    end;
    exfalso; apply Hk; unfold option_keys; rewrite !elem_of_cons; tauto.
Qed.


(** ** A blank field against an absent one *)

Lemma blank_inherited product k v v' :
  blank_as_none v v' ->
  blank_as_none (inherited product k v) (inherited product k v').
Proof.
  unfold inherited, inherit_value. destruct product as [p|]; [|done].
  destruct (dict_truthy p && bool_decide (k ∈ option_keys)); [|done].
  intros [[-> Hne]|[-> ->]].
  - destruct (truthy v'); [by left|]. destruct (first_option p k); by left.
  - cbn [truthy PyStr.truthy String.eqb negb].
    destruct (first_option p k); [by left|by right].
Qed.

Lemma blank_defaulted base k v v' :
  blank_as_none v v' ->
  blank_as_none (defaulted base k v) (defaulted base k v').
Proof.
  unfold defaulted, py_or. destruct (assoc k base) as [d|]; [|done].
  intros [[-> Hne]|[-> ->]].
  - destruct (truthy v'); by left.
  - by left.
Qed.

Lemma blank_sized cust k v v' :
  blank_as_none v v' ->
  blank_as_none (sized cust k v) (sized cust k v').
Proof.
  unfold sized. destruct (Customization.measurements cust) as [m|]; [|done].
  destruct (Measurement.chest_cm m) as [c|]; [|done].
  intros [[-> Hne]|[-> ->]].
  - destruct (String.eqb k "size" && negb (truthy v') && PyFloat.truthy c); by left.
  - cbn [truthy PyStr.truthy String.eqb negb].
    destruct (String.eqb k "size" && true && PyFloat.truthy c); [by left|by right].
Qed.

Lemma blank_text v v' : blank_as_none v v' -> text_of v = text_of v'.
Proof. by intros [[-> _]|[-> ->]]. Qed.

(** Evaluate the comparisons of two string literals. *)
Ltac closed_eqb :=
  repeat match goal with
  | |- context [String.eqb ?a ?b] =>
      first [ is_var a; fail 1 | is_var b; fail 1
            | let v := eval vm_compute in (String.eqb a b) in
              change (String.eqb a b) with v ]
  end; cbv beta iota.

Lemma get_dump_with_field key o cust k :
  key ∈ option_keys ->
  get (model_dump (with_field key o cust)) k =
  if String.eqb key k then of_opt_str o else get (model_dump cust) k.
Proof.
  intros Hkey. rewrite !get_model_dump. unfold with_field. dump_fields.
  destruct (String.eqb_spec key k) as [<-|Hne].
  - destruct (option_keys_cases key Hkey) as [->|[->|[->|[->| ->]]]]; reflexivity.
  - destruct (option_keys_cases key Hkey) as [->|[->|[->|[->| ->]]]];
      closed_eqb;
      repeat match goal with
      | |- context [String.eqb ?a k] => destruct (String.eqb_spec a k); [try done|]
      end; done.
Qed.

Lemma falsy_text v :
  textual v = true -> truthy v = false -> v <> VNone -> v = VStr "".
Proof.
  destruct v as [| | |s| | |]; try done. intros _ Hs _.
  unfold truthy, PyStr.truthy in Hs. destruct (String.eqb_spec s ""); by subst.
Qed.


(** ** The ranking loop, one candidate at a time *)

Lemma rank_skip req p products out cat comp :
  candidate_category req p = Some cat ->
  auto_complete_customization (Customization.of_category cat) (Some p) = Some comp ->
  over_budget req (est_price comp) = true ->
  rank req (p :: products) out = rank req products out.
Proof. intros Hc Ha Ho. cbn [rank]. rewrite Hc. cbn [mbind option_bind]. rewrite Ha. cbn [mbind option_bind]. by rewrite Ho. Qed.

Lemma rank_keep req p products out cat comp pid :
  candidate_category req p = Some cat ->
  auto_complete_customization (Customization.of_category cat) (Some p) = Some comp ->
  product_id_of p = Some pid ->
  over_budget req (est_price comp) = false ->
  rank req (p :: products) out = kept req p comp pid products out.
Proof.
  intros Hc Ha Hp Ho. cbn [rank]. rewrite Hc. cbn [mbind option_bind].
  rewrite Ha. cbn [mbind option_bind]. rewrite Ho, Hp. done.
Qed.

Lemma rank_step req p products out cat comp pid :
  candidate_category req p = Some cat ->
  auto_complete_customization (Customization.of_category cat) (Some p) = Some comp ->
  product_id_of p = Some pid ->
  rank req (p :: products) out =
  if over_budget req (est_price comp) then rank req products out
  else kept req p comp pid products out.
Proof.
  intros Hc Ha Hp. destruct (over_budget req (est_price comp)) eqn:Ho.
  - by eapply rank_skip.
  - by eapply rank_keep.
Qed.

Lemma candidate_category_ok req p :
  product_ok p = true -> exists cat, candidate_category req p = Some cat.
Proof.
  unfold product_ok, candidate_category. intros H.
  apply andb_true_iff in H as [H _]. apply andb_true_iff in H as [H _].
  destruct (p !! "category") as [[| | |s| | |]|]; try done; cbn [default]; eauto.
  unfold py_or. destruct (RecommendationRequest.category req) as [c|]; cbn [of_opt_str truthy].
  - destruct (PyStr.truthy c); eauto.
  - eauto.
Qed.

Lemma product_ok_parts p :
  product_ok p = true ->
  priced (Some p) = true /\ exists pid, product_id_of p = Some pid.
Proof.
  unfold product_ok. intros H.
  apply andb_true_iff in H as [H Hid]. apply andb_true_iff in H as [_ Hp].
  split; [done|]. apply bool_decide_eq_true_1 in Hid. destruct Hid as [pid ?]. eauto.
Qed.

(** Over well-formed candidates the loop returns a list. *)
Lemma rank_total req products : forall out,
  Forall (fun p => product_ok p = true) products ->
  exists recs, rank req products out = Some recs.
Proof.
  induction products as [|p products IH]; intros out Hok.
  - by exists out.
  - apply list.Forall_cons in Hok as [Hp Hok].
    destruct (candidate_category_ok req p Hp) as [cat Hc].
    destruct (product_ok_parts p Hp) as [Hpr [pid Hid]].
    destruct (priced_number _ Hpr) as [base Hb].
    rewrite (rank_step req p products out cat _ pid Hc
               (auto_complete_spec _ _ base Hb) Hid).
    destruct (over_budget req _); [by apply IH|].
    unfold kept. destruct (3 <=? _)%nat; [eauto|by apply IH].
Qed.

(** Every entry the loop adds carries the rationale chosen for the request. *)
Lemma rank_rationale req products : forall out recs,
  rank req products out = Some recs ->
  Forall (fun r => rationale r = choose_rationale req) out ->
  Forall (fun r => rationale r = choose_rationale req) recs.
Proof.
  induction products as [|p products IH]; intros out recs Hr Hout.
  - cbn in Hr. by injection Hr as <-.
  - cbn [rank] in Hr.
    destruct (candidate_category req p) as [cat|]; [|discriminate].
    cbn [mbind option_bind] in Hr.
    destruct (auto_complete_customization _ _) as [comp|]; [|discriminate].
    cbn [mbind option_bind] in Hr.
    destruct (over_budget req (est_price comp)); [by eapply IH|].
    destruct (product_id_of p) as [pid|]; [|discriminate].
    cbn [mbind option_bind] in Hr.
    assert (Forall (fun r => rationale r = choose_rationale req)
              (out ++ [Recommendation pid (get p "title") (get p "category")
                         (config comp) (est_price comp) (choose_rationale req)])%list)
      as Hout'.
    { apply Forall_app. split; [done|]. by apply Forall_singleton. }
    destruct (3 <=? _)%nat; [by injection Hr as <-|by eapply IH].
Qed.

Lemma choose_rationale_spec req : choose_rationale req = rationale_spec req.
Proof.
  unfold choose_rationale, rationale_spec, mentions_wedding, vintage_or_classic.
  destruct (RecommendationRequest.purpose req) as [purpose|],
           (RecommendationRequest.style req) as [style|].
  all: try (unfold PyStr.truthy; destruct (String.eqb_spec purpose "") as [->|_]).
  all: try (unfold PyStr.truthy; destruct (String.eqb_spec style "") as [->|_]).
  all: cbn [negb andb].
  all: repeat match goal with
       | |- context [PyStr.contains ?a (PyStr.lower "")] =>
           let v := eval vm_compute in (PyStr.contains a (PyStr.lower "")) in
           change (PyStr.contains a (PyStr.lower "")) with v
       | |- context [PyStr.mem (PyStr.lower "") ?l] =>
           let v := eval vm_compute in (PyStr.mem (PyStr.lower "") l) in
           change (PyStr.mem (PyStr.lower "") l) with v
       end.
  all: repeat match goal with
       | |- context [PyStr.contains ?a ?b] => destruct (PyStr.contains a b)
       | |- context [PyStr.mem ?a ?b] => destruct (PyStr.mem a b)
       end; reflexivity.
Qed.

Lemma rank_all_skipped req products : forall out,
  Forall (fun p => exists cat comp,
            candidate_category req p = Some cat /\
            auto_complete_customization (Customization.of_category cat) (Some p)
              = Some comp /\
            over_budget req (est_price comp) = true) products ->
  rank req products out = Some out.
Proof.
  induction products as [|p products IH]; intros out H; [done|].
  apply list.Forall_cons in H as [(cat & comp & Hc & Ha & Ho) H].
  rewrite (rank_skip _ _ _ _ _ _ Hc Ha Ho). by apply IH.
Qed.

Lemma seed_suit_completion :
  auto_complete_customization (Customization.of_category "suit") (Some seed_suit)
  = Some (Completion (fill (Customization.of_category "suit") (Some seed_suit)) 1560).
Proof.
  rewrite (auto_complete_spec _ _ 1200%float) by (vm_compute; reflexivity).
  do 2 f_equal; try (vm_compute; reflexivity).
Qed.

Lemma seed_boots_completion :
  auto_complete_customization (Customization.of_category "boots") (Some seed_boots)
  = Some (Completion (fill (Customization.of_category "boots") (Some seed_boots)) 513).
Proof.
  rewrite (auto_complete_spec _ _ 380%float) by (vm_compute; reflexivity).
  do 2 f_equal; try (vm_compute; reflexivity).
Qed.

Lemma seed_shirt_completion :
  auto_complete_customization (Customization.of_category "shirt") (Some seed_shirt)
  = Some (Completion (fill (Customization.of_category "shirt") (Some seed_shirt)) 126).
Proof.
  rewrite (auto_complete_spec _ _ 120%float) by (vm_compute; reflexivity).
  do 2 f_equal; try (vm_compute; reflexivity).
Qed.

Lemma candidate_category_own req (p : gmap string value) cat :
  p !! "category" = Some (VStr cat) -> candidate_category req p = Some cat.
Proof. intros H. unfold candidate_category. by rewrite H. Qed.

Lemma seed_ok : Forall (fun p => product_ok p = true) seed.
Proof. repeat constructor. Qed.


(** ** The router *)

Lemma choose_category_first table last :
  (exists entry, entry ∈ table /\ PyStr.any_in entry.2 last = true) ->
  exists chosen kws,
    choose_category table last = Some chosen /\
    (chosen, kws) ∈ table /\ PyStr.any_in kws last = true.
Proof.
  induction table as [|[k kws] table IH]; intros (entry & Hin & Hany).
  - by apply elem_of_nil in Hin.
  - cbn [choose_category]. destruct (PyStr.any_in kws last) eqn:E.
    + exists k, kws. split; [done|]. split; [left|done].
    + apply elem_of_cons in Hin as [->|Hin]; [cbn [snd] in Hany; congruence|].
      destruct IH as (chosen & kws' & Hc & Hin' & Hany'); [by exists entry|].
      exists chosen, kws'. split; [done|]. split; [by right|done].
Qed.

Lemma last_user_text_snoc history content :
  last_user_text (ChatRequest.mk (history ++ [ChatMessage.mk "user" content]))
  = PyStr.lower content.
Proof.
  unfold last_user_text. cbn [ChatRequest.messages].
  rewrite List.filter_app, List.map_app. cbn [List.filter ChatMessage.role].
  change (String.eqb "user" "user") with true. cbn [List.map ChatMessage.content].
  by rewrite List.last_last.
Qed.


(** * The claims *)

(** ** The completion engine *)



(** C2: when [size] is still unset after product inheritance and category
    defaults, a chest measurement picks the band (below 90 XS, 90 to below
    96 S, 96 to below 102 M, 102 to below 110 L, 110 and up XL); without a
    chest measurement [size] stays unset. *)
Theorem size_inference cust product :
  Customization.valid cust = true ->
  priced product = true ->
  truthy (get (prefill cust product) "size") = false ->
  exists out,
    auto_complete_customization cust product = Some out /\
    match Customization.measurements cust ≫= Measurement.chest_cm with
    | Some chest_cm =>
        ((chest_cm <? 90)%float = true -> get (config out) "size" = VStr "XS") /\
        ((90 <=? chest_cm)%float = true -> (chest_cm <? 96)%float = true ->
         get (config out) "size" = VStr "S") /\
        ((96 <=? chest_cm)%float = true -> (chest_cm <? 102)%float = true ->
         get (config out) "size" = VStr "M") /\
        ((102 <=? chest_cm)%float = true -> (chest_cm <? 110)%float = true ->
         get (config out) "size" = VStr "L") /\
        ((110 <=? chest_cm)%float = true -> get (config out) "size" = VStr "XL")
    | None =>
        get (config out) "size" = get (prefill cust product) "size" /\
        truthy (get (config out) "size") = false
    end.
Proof.
  intros Hv Hp Hsize. destruct (priced_number _ Hp) as [base Hb].
  eexists. split; [by apply auto_complete_spec|]. simpl config.
  rewrite get_fill. unfold sized.
  destruct (Customization.measurements cust) as [m|] eqn:Em;
    cbn [mbind option_bind]; [|by split].
  destruct (Measurement.chest_cm m) as [c|] eqn:Ec; [|by split].
  rewrite Hsize. rewrite (above_truthy 60 c); [|done|by eapply valid_chest].
  cbn [negb andb String.eqb Ascii.eqb Bool.eqb].
  destruct (size_band_spec c) as (H1 & H2 & H3 & H4 & H5).
  repeat split; intros; f_equal; auto.
Qed.

Lemma size_inference_witness :
  exists out,
    auto_complete_customization (measured_suit 95.9) None = Some out /\
    get (config out) "size" = VStr "S".
Proof.
  destruct (size_inference (measured_suit 95.9) None) as (out & Hout & H).
  - vm_compute. reflexivity.
  - vm_compute. reflexivity.
  - vm_compute. reflexivity.
  - exists out. split; [exact Hout|].
    simpl in H. destruct H as (_ & H & _). apply H; vm_compute; reflexivity.
Defined.

(** C3: a field the request supplies non-empty comes out as supplied, and
    a blank (empty string) option field is filled at every step as an
    absent one is: same price, same configuration when some step fills the
    field, and otherwise the only difference is the blank itself. *)
Theorem supplied_kept_blank_missing cust product :
  priced product = true ->
  exists out,
    auto_complete_customization cust product = Some out /\
    (forall k, truthy (get (model_dump cust) k) = true ->
               get (config out) k = get (model_dump cust) k) /\
    (forall k, k ∈ option_keys -> get (model_dump cust) k = VStr "" ->
       exists out',
         auto_complete_customization (with_field k None cust) product = Some out' /\
         est_price out = est_price out' /\
         config out = if truthy (get (config out') k) then config out'
                      else <[k := VStr ""]> (config out')).
Proof.
  intros Hp. destruct (priced_number _ Hp) as [base Hb].
  eexists. split; [by apply auto_complete_spec|]. cbn [config est_price]. split.
  - intros k Hk. rewrite get_fill_steps.
    set (v := get (model_dump cust) k) in *.
    assert (inherited product k v = v) as ->.
    { unfold inherited, inherit_value. rewrite Hk.
      destruct product as [p|]; [|done].
      by destruct (dict_truthy p && bool_decide (k ∈ option_keys)). }
    assert (defaulted (defaults_get (Customization.category cust)) k v = v) as ->.
    { unfold defaulted, py_or. rewrite Hk. by destruct (assoc _ _). }
    unfold sized. rewrite Hk, andb_false_r.
    destruct (Customization.measurements cust) as [m|]; [|done].
    by destruct (Measurement.chest_cm m).
  - intros k Hk Hblank. eexists. split; [by apply auto_complete_spec|].
    cbn [config est_price].
    set (cust' := with_field k None cust).
    assert (forall k', k' <> k -> get (fill cust product) k' = get (fill cust' product) k')
      as Hother.
    { intros k' Hne. rewrite !get_fill_steps. unfold cust'.
      rewrite get_dump_with_field by done.
      destruct (String.eqb_spec k k'); [congruence|done]. }
    assert (blank_as_none (get (fill cust product) k) (get (fill cust' product) k))
      as Hk'.
    { rewrite !get_fill_steps. unfold cust'. rewrite get_dump_with_field by done.
      rewrite String.eqb_refl, Hblank.
      change (sized (with_field k None cust)) with (sized cust).
      change (Customization.category (with_field k None cust))
        with (Customization.category cust).
      apply blank_sized, blank_defaulted, blank_inherited. by right. }
    assert (forall k', text_of (get (fill cust product) k')
                       = text_of (get (fill cust' product) k')) as Htext.
    { intros k'. destruct (decide (k' = k)) as [->|Hne].
      - by apply blank_text.
      - by rewrite Hother. }
    split.
    + f_equal. f_equal. by apply multiplier_spec_ext.
    + destruct (truthy (get (fill cust' product) k)) eqn:Ht.
      * apply map_eq_get; [by rewrite !dom_fill|]. intros k'.
        destruct (decide (k' = k)) as [->|Hne]; [|by apply Hother].
        destruct Hk' as [[? _]|[_ Hn]]; [done|]. rewrite Hn in Ht. discriminate.
      * apply map_eq_get.
        { rewrite dom_insert_in; rewrite !dom_fill; [done|]. by apply option_keys_fields. }
        intros k'. rewrite get_insert.
        destruct (String.eqb_spec k k') as [<-|Hne]; [|apply Hother; congruence].
        destruct Hk' as [[Heq Hne]|[Heq _]]; [|done].
        rewrite Heq. apply falsy_text; [|done|done].
        by apply textual_fill.
Qed.

Lemma supplied_kept_blank_missing_witness :
  exists out out',
    auto_complete_customization red_suit (Some navy_product) = Some out /\
    get (config out) "color" = VStr "red" /\
    auto_complete_customization (with_field "size" None red_suit) (Some navy_product)
      = Some out' /\
    est_price out = est_price out'.
Proof.
  destruct (supplied_kept_blank_missing red_suit (Some navy_product))
    as (out & Hout & Hkept & Hblank).
  - vm_compute. reflexivity.
  - destruct (Hblank "size") as (out' & Hout' & Hprice & _).
    + apply elem_option_keys. tauto.
    + vm_compute. reflexivity.
    + exists out, out'. split; [exact Hout|]. split; [|split; [exact Hout'|exact Hprice]].
      apply (Hkept "color"). vm_compute. reflexivity.
Defined.

(** C9 (as amended): two requests that differ only in the [auto] flag get
    the same estimated price, and configurations that are equal except for
    the [auto] entry, which repeats the flag of the request. *)
Theorem auto_flag_only_echoed cust product b :
  priced product = true ->
  exists out out',
    auto_complete_customization cust product = Some out /\
    auto_complete_customization (with_auto b cust) product = Some out' /\
    est_price out' = est_price out /\
    config out' = <["auto" := VBool b]> (config out).
Proof.
  intros Hp. destruct (priced_number _ Hp) as [base Hb].
  assert (fill (with_auto b cust) product
          = <["auto" := VBool b]> (fill cust product)) as Hfill.
  { apply fill_passive_change;
      [ apply field_keys_elem; rewrite !elem_of_cons; tauto
      | apply passive_not_option; tauto
      | reflexivity | reflexivity
      | apply get_dump_with_auto ]. }
  eexists. eexists. split; [by apply auto_complete_spec|].
  split; [by apply auto_complete_spec|]. cbn [est_price config]. split; [|done].
  rewrite (passive_price cust _ product "auto" (VBool b)); [done| |done].
  apply passive_not_option. tauto.
Qed.

Lemma auto_flag_only_echoed_witness :
  exists out out',
    auto_complete_customization (Customization.of_category "suit") None = Some out /\
    auto_complete_customization (with_auto true (Customization.of_category "suit")) None
      = Some out' /\
    est_price out' = est_price out /\
    config out' = <["auto" := VBool true]> (config out).
Proof.
  apply (auto_flag_only_echoed (Customization.of_category "suit") None true).
  vm_compute. reflexivity.
Defined.

(** The two outputs differ: the configuration repeats the flag. *)
Lemma auto_flag_changes_output :
  auto_complete_customization (Customization.of_category "suit") None
  <> auto_complete_customization (with_auto true (Customization.of_category "suit")) None.
Proof.
  intros H.
  apply (f_equal (fun o => (fun out => get (config out) "auto") <$> o)) in H.
  vm_compute in H. discriminate.
Qed.

(** ** The ranking loop *)

(** C4 (as amended): for a budget that is set and not zero, a candidate
    is skipped exactly when its price is above [budget * 1.2], the
    product and the comparison being those of binary64 as the code
    computes them; a price equal to that product is kept, and a price of
    [budget * 1.2 + 0.01] is skipped whenever that sum is above
    [budget * 1.2]; with no budget, or a budget of zero, no candidate is
    skipped on price. *)
Theorem budget_filter req p products out cat comp pid :
  candidate_category req p = Some cat ->
  auto_complete_customization (Customization.of_category cat) (Some p) = Some comp ->
  product_id_of p = Some pid ->
  rank req (p :: products) out =
    (if over_budget req (est_price comp) then rank req products out
     else kept req p comp pid products out) /\
  match RecommendationRequest.budget req with
  | Some budget =>
      if PyFloat.truthy budget then
        over_budget req (est_price comp) = (budget * 1.2 <? est_price comp)%float /\
        (est_price comp = (budget * 1.2)%float ->
         over_budget req (est_price comp) = false) /\
        (est_price comp = (budget * 1.2 + 0.01)%float ->
         (budget * 1.2 <? budget * 1.2 + 0.01)%float = true ->
         over_budget req (est_price comp) = true)
      else over_budget req (est_price comp) = false
  | None => over_budget req (est_price comp) = false
  end.
Proof.
  intros Hc Ha Hp. split; [by apply (rank_step req p products out cat)|].
  unfold over_budget. destruct (RecommendationRequest.budget req) as [b|]; [|done].
  destruct (PyFloat.truthy b); [|done]. cbn [andb].
  split; [done|]. split.
  - intros ->. apply ltb_irrefl.
  - by intros ->.
Qed.

Lemma budget_filter_witness :
  exists comp,
    auto_complete_customization (Customization.of_category "hat") (Some felt_hat)
      = Some comp /\
    est_price comp = (100 * 1.2)%float /\
    rank (budget_request 100) [felt_hat] []
      = kept (budget_request 100) felt_hat comp None [] [].
Proof.
  assert (exists comp,
    auto_complete_customization (Customization.of_category "hat") (Some felt_hat)
      = Some comp /\ est_price comp = (100 * 1.2)%float) as (comp & Ha & Hprice).
  { eexists. split; [apply (auto_complete_spec _ _ 120%float); reflexivity|].
    vm_compute. reflexivity. }
  exists comp. split; [exact Ha|]. split; [exact Hprice|].
  destruct (budget_filter (budget_request 100) felt_hat [] [] "hat" comp None)
    as [Hstep Hb].
  - reflexivity.
  - exact Ha.
  - vm_compute. reflexivity.
  - cbn [budget_request RecommendationRequest.budget] in Hb.
    change (PyFloat.truthy 100) with true in Hb. cbv iota in Hb.
    destruct Hb as (_ & Hkeep & _). rewrite (Hkeep Hprice) in Hstep. exact Hstep.
Defined.

(** Three requests at which the filter is not "skipped exactly when the
    price is above budget times 1.2".  A budget of zero is set, and the
    seed suit at 1560 is kept.  At budget 48 the hat at 57.60, the double
    nearest to 48 times 1.2 = 576/10 and the value of
    [round(48 * 1.2, 2)], is skipped, the binary64 product being
    57.599999999999994.  At budget 1e17 adding 0.01 to the product changes
    nothing, and the hat at that price is kept. *)
Lemma budget_filter_counterexamples :
  (RecommendationRequest.budget (budget_request 0) = Some 0%float /\
   (0 * 1.2 <? 1560)%float = true /\
   map rec_est_price <$> rank (budget_request 0) [seed_suit] []
     = Some [1560%float]) /\
  (SF2Prim (SFdiv prec emax (S754_finite false 576 0) (S754_finite false 10 0))
     = 57.6%float /\
   PyFloat.round2 (48 * 1.2) = 57.6%float /\
   (48 * 1.2)%float = 57.599999999999994%float /\
   est_price <$> auto_complete_customization (Customization.of_category "hat")
                   (Some (hat_at 57.6)) = Some 57.6%float /\
   rank (budget_request 48) [hat_at 57.6] [] = Some []) /\
  ((1e17 * 1.2 + 0.01)%float = (1e17 * 1.2)%float /\
   map rec_est_price <$> rank (budget_request 1e17) [hat_at (1e17 * 1.2 + 0.01)] []
     = Some [(1e17 * 1.2 + 0.01)%float]).
Proof.
  repeat split; vm_compute; reflexivity.
Qed.

(** The loop returns the entries of the first three candidates that are
    within budget. *)
Lemma rank_first_within_budget req products : forall out,
  Forall (fun p => product_ok p = true) products ->
  length out < 3 ->
  exists new,
    rank req products out = Some (out ++ new)%list /\
    Forall2 (entry_for req)
      (take (3 - length out) (List.filter (within_budget req) products)) new.
Proof.
  induction products as [|p products IH]; intros out Hok Hlen.
  - exists []. rewrite app_nil_r. cbn [List.filter]. rewrite take_nil.
    split; [done|constructor].
  - apply list.Forall_cons in Hok as [Hp Hok].
    destruct (candidate_category_ok req p Hp) as [cat Hc].
    destruct (product_ok_parts p Hp) as [Hpr [pid Hid]].
    destruct (priced_number _ Hpr) as [base Hb].
    pose proof (auto_complete_spec (Customization.of_category cat) _ base Hb) as Ha.
    set (comp := Completion _ _) in Ha.
    assert (within_budget req p = negb (over_budget req (est_price comp))) as Hw.
    { unfold within_budget. by rewrite Hc, Ha. }
    cbn [List.filter]. rewrite Hw.
    destruct (over_budget req (est_price comp)) eqn:Ho; cbn [negb].
    + rewrite (rank_skip req p products out cat comp Hc Ha Ho). by apply IH.
    + rewrite (rank_keep req p products out cat comp pid Hc Ha Hid Ho).
      assert (entry_for req p (entry_of req p comp pid)) as He.
      { by exists cat, comp, pid. }
      unfold kept. rewrite length_app. cbn [length].
      destruct (3 - length out) as [|n] eqn:Hn; [lia|]. cbn [take].
      destruct (3 <=? length out + 1)%nat eqn:Hfull.
      * exists [entry_of req p comp pid]. split; [done|].
        apply Nat.leb_le in Hfull. assert (n = 0) as -> by lia.
        rewrite take_0. by repeat constructor.
      * apply Nat.leb_gt in Hfull.
        destruct (IH (out ++ [entry_of req p comp pid])%list Hok)
          as (new & Hr & Hall).
        { rewrite length_app. cbn [length]. lia. }
        exists (entry_of req p comp pid :: new). rewrite <- app_assoc in Hr.
        split; [exact Hr|]. constructor; [done|].
        rewrite length_app in Hall. cbn [length] in Hall.
        by replace (3 - (length out + 1)) with n in Hall by lia.
Qed.

(** ** The endpoints *)

Section Store.

Variable ObjectId : string -> option string.
Variable find_one : string -> option (option (gmap string value)).
Variable get_documents :
  string -> gmap string value -> nat -> list (gmap string value).

Lemma load_unresolved cust pid :
  Customization.product_id cust = Some pid ->
  (ObjectId pid = None \/
   exists oid, ObjectId pid = Some oid /\ find_one oid = Some None) ->
  load_product ObjectId find_one cust = Some None.
Proof.
  intros Hpid H. unfold load_product. rewrite Hpid.
  destruct (PyStr.truthy pid); [|done].
  destruct H as [->|(oid & -> & ->)]; done.
Qed.

(** C7 (as amended): when the [product_id] is malformed or names no
    stored product, [customize] raises nothing and completes the request
    as with no product: the same estimated price as the request without a
    [product_id], and the same configuration except for the [product_id]
    entry, which repeats the identifier of the request. *)
Theorem unresolved_product_id cust pid :
  Customization.product_id cust = Some pid ->
  (ObjectId pid = None \/
   exists oid, ObjectId pid = Some oid /\ find_one oid = Some None) ->
  exists out out',
    customize ObjectId find_one cust = Some out /\
    customize ObjectId find_one (with_product_id None cust) = Some out' /\
    customize ObjectId find_one cust = auto_complete_customization cust None /\
    est_price out = est_price out' /\
    config out = <["product_id" := VStr pid]> (config out').
Proof.
  clear get_documents.
  intros Hpid H. unfold customize.
  rewrite (load_unresolved cust pid Hpid H).
  cbn [mbind option_bind load_product with_product_id Customization.product_id].
  assert (as_number (base_price_of None) = Some 300%float) as Hb by done.
  assert (fill cust None
          = <["product_id" := VStr pid]> (fill (with_product_id None cust) None))
    as Hfill.
  { apply fill_passive_change;
      [ apply field_keys_elem; rewrite !elem_of_cons; tauto
      | apply passive_not_option; tauto
      | reflexivity | reflexivity | ].
    intros k. rewrite get_dump_with_product_id.
    destruct (String.eqb_spec "product_id" k) as [<-|Hne].
    - rewrite get_model_dump. cbn. by rewrite Hpid.
    - rewrite !get_model_dump. unfold with_product_id. dump_fields.
      destruct (String.eqb_spec "product_id" k); done. }
  eexists. eexists. split; [by apply auto_complete_spec|].
  split; [by apply auto_complete_spec|]. split; [done|].
  cbn [est_price config]. split; [|done].
  rewrite (passive_price (with_product_id None cust) cust None
             "product_id" (VStr pid)); [done| |done].
  apply passive_not_option. tauto.
Qed.

Lemma candidates_ok req :
  catalog_ok get_documents ->
  Forall (fun p => product_ok p = true)
    (take 6 (or_seed (get_documents "product" (catalog_filter req) 50))).
Proof.
  intros Hok. apply Forall_take. unfold or_seed.
  destruct (get_documents "product" (catalog_filter req) 50) eqn:E.
  - apply seed_ok.
  - rewrite <- E. apply Hok.
Qed.

(** Over a well-formed catalog the ranker returns a list, and every entry
    carries the rationale chosen for the request. *)
Lemma recommendations_returns req :
  catalog_ok get_documents ->
  exists recs,
    recommendations get_documents req = Some recs /\
    Forall (fun r => rationale r = choose_rationale req) recs.
Proof.
  intros Hok. unfold recommendations.
  destruct (rank_total req _ [] (candidates_ok req Hok)) as [recs Hr].
  exists recs. split; [exact Hr|]. by eapply rank_rationale.
Qed.

(** C5: the ranker returns the entries of the first three candidates
    within budget, one entry for each, and every entry carries the
    rationale picked by priority: the wedding text when the purpose
    contains "wedding", else the vintage text when the style is "vintage"
    or "classic", else the default text (case-insensitively). *)
Theorem rationale_priority req :
  catalog_ok get_documents ->
  exists recs,
    recommendations get_documents req = Some recs /\
    Forall (fun r => rationale r = rationale_spec req) recs /\
    Forall2 (fun p r => entry_for req p r /\ rationale r = rationale_spec req)
      (take 3 (List.filter (within_budget req) (candidates get_documents req)))
      recs.
Proof.
  intros Hok.
  destruct (rank_first_within_budget req (candidates get_documents req) [])
    as (recs & Hr & Hall).
  { by apply candidates_ok. }
  { cbn [length]. lia. }
  cbn [app length] in Hr, Hall. change (3 - 0) with 3 in Hall. exists recs. split; [exact Hr|].
  assert (Forall (fun r => rationale r = rationale_spec req) recs) as Hrat.
  { rewrite <- choose_rationale_spec. by eapply rank_rationale. }
  split; [exact Hrat|].
  clear Hr. revert Hall.
  generalize (take 3 (List.filter (within_budget req)
                          (candidates get_documents req))).
  intros l Hall. induction Hall as [|p r ps rs He Hall IH]; [constructor|].
  apply list.Forall_cons in Hrat as [Hr Hrat]. constructor; [done|by apply IH].
Qed.

(** C6: when the catalog query returns no product and the budget removes
    no seed candidate, the ranker returns exactly the three seed
    recommendations, in seed order, each without a product id. *)
Theorem empty_catalog_seed req :
  get_documents "product" (catalog_filter req) 50 = [] ->
  Forall (fun p => forall cat comp,
            candidate_category req p = Some cat ->
            auto_complete_customization (Customization.of_category cat) (Some p)
              = Some comp ->
            over_budget req (est_price comp) = false) seed ->
  exists recs,
    recommendations get_documents req = Some recs /\
    length recs = 3 /\
    map rec_title recs = [VStr "Savile Row Three-Piece Suit";
                          VStr "Full-Grain Leather Boots";
                          VStr "Classic Oxford Shirt"] /\
    map rec_category recs = [VStr "suit"; VStr "boots"; VStr "shirt"] /\
    map rec_est_price recs = [1560; 513; 126]%float /\
    Forall (fun r => rec_product_id r = None) recs.
Proof.
  intros Hempty Hbudget. unfold recommendations. rewrite Hempty.
  change (take 6 (or_seed [])) with [seed_suit; seed_boots; seed_shirt].
  unfold seed in Hbudget.
  apply list.Forall_cons in Hbudget as [H1 Hbudget].
  apply list.Forall_cons in Hbudget as [H2 Hbudget].
  apply list.Forall_cons in Hbudget as [H3 _].
  pose proof (candidate_category_own req seed_suit "suit" eq_refl) as C1.
  pose proof (candidate_category_own req seed_boots "boots" eq_refl) as C2.
  pose proof (candidate_category_own req seed_shirt "shirt" eq_refl) as C3.
  rewrite (rank_keep _ _ _ _ _ _ None C1 seed_suit_completion eq_refl
             (H1 _ _ C1 seed_suit_completion)).
  unfold kept at 1. cbn [app length Nat.leb].
  rewrite (rank_keep _ _ _ _ _ _ None C2 seed_boots_completion eq_refl
             (H2 _ _ C2 seed_boots_completion)).
  unfold kept at 1. cbn [app length Nat.leb].
  rewrite (rank_keep _ _ _ _ _ _ None C3 seed_shirt_completion eq_refl
             (H3 _ _ C3 seed_shirt_completion)).
  unfold kept at 1. cbn [app length Nat.leb].
  eexists. split; [reflexivity|].
  split; [reflexivity|]. split; [reflexivity|]. split; [reflexivity|].
  split; [reflexivity|]. repeat constructor.
Qed.

(** C10: the seed set stands in only for an empty catalog fetch: when the
    fetch returns a product and the budget removes every candidate, the
    ranker returns the empty list. *)
Theorem no_fallback_after_filter req :
  get_documents "product" (catalog_filter req) 50 <> [] ->
  Forall (fun p => exists cat comp,
            candidate_category req p = Some cat /\
            auto_complete_customization (Customization.of_category cat) (Some p)
              = Some comp /\
            over_budget req (est_price comp) = true)
         (take 6 (get_documents "product" (catalog_filter req) 50)) ->
  recommendations get_documents req = Some [].
Proof.
  intros Hne Hall. unfold recommendations.
  destruct (get_documents "product" (catalog_filter req) 50) as [|p ps]; [done|].
  by apply rank_all_skipped.
Qed.

Lemma chat_category req chosen recs :
  choose_category cat_map (last_user_text req) = Some chosen ->
  recommendations get_documents (category_request chosen) = Some recs ->
  chat get_documents req = Some (ChatResponse (category_reply chosen) (Some recs)).
Proof.
  intros Hc Hr. unfold chat. rewrite Hc.
  change (RecommendationRequest.mk None (Some "vintage") None None (Some chosen) None)
    with (category_request chosen).
  rewrite Hr. done.
Qed.

(** C8: when the last user message contains a category keyword the router
    takes the category branch, whatever occasion keyword it also contains:
    it asks the ranker for that category with style "vintage" and answers
    with the category message; "I need a navy suit for a wedding" is
    answered with the suit message. *)
Theorem category_branch_first req :
  catalog_ok get_documents ->
  (exists entry, entry ∈ cat_map /\
                 PyStr.any_in entry.2 (last_user_text req) = true) ->
  (exists chosen kws recs,
     (chosen, kws) ∈ cat_map /\
     PyStr.any_in kws (last_user_text req) = true /\
     recommendations get_documents (category_request chosen) = Some recs /\
     chat get_documents req
       = Some (ChatResponse (category_reply chosen) (Some recs))) /\
  (forall history,
     let said := ChatRequest.mk (history ++ [ChatMessage.mk "user" wedding_suit]) in
     PyStr.contains "wedding" (last_user_text said) = true /\
     exists recs,
       recommendations get_documents
         (RecommendationRequest.mk None (Some "vintage") None None (Some "suit") None)
         = Some recs /\
       chat get_documents said
         = Some (ChatResponse
                   "I recommend these suit options. Would you like me to tailor the fit and fabric to your climate and occasion?"
                   (Some recs))).
Proof.
  intros Hok Hkw. split.
  - destruct (choose_category_first _ _ Hkw) as (chosen & kws & Hc & Hin & Hany).
    destruct (recommendations_returns (category_request chosen) Hok)
      as (recs & Hr & _).
    exists chosen, kws, recs. repeat split; try done. by apply chat_category.
  - intros history said. unfold said. rewrite last_user_text_snoc.
    split; [vm_compute; reflexivity|].
    destruct (recommendations_returns (category_request "suit") Hok)
      as (recs & Hr & _).
    exists recs. split; [exact Hr|].
    apply (chat_category _ "suit"); [|exact Hr].
    rewrite last_user_text_snoc. vm_compute. reflexivity.
Qed.

End Store.

Lemma unresolved_product_id_witness :
  exists out out',
    customize rejects_all finds_none unknown_suit = Some out /\
    customize rejects_all finds_none (with_product_id None unknown_suit) = Some out' /\
    est_price out = est_price out' /\
    config out = <["product_id" := VStr "not-an-id"]> (config out').
Proof.
  destruct (unresolved_product_id rejects_all finds_none unknown_suit "not-an-id")
    as (out & out' & H1 & H2 & _ & H3 & H4).
  - reflexivity.
  - left. reflexivity.
  - exists out, out'. auto.
Defined.

(** The two outputs differ: the configuration repeats the identifier. *)
Lemma unresolved_product_id_echoed :
  customize rejects_all finds_none unknown_suit
  <> customize rejects_all finds_none (with_product_id None unknown_suit).
Proof.
  intros H.
  apply (f_equal (fun o => (fun out => get (config out) "product_id") <$> o)) in H.
  vm_compute in H. discriminate.
Qed.

Lemma rationale_priority_witness :
  exists r,
    recommendations one_blazer beach_wedding = Some [r] /\
    entry_for beach_wedding navy_product r /\
    rationale r = "Formal-appropriate with elevated finishing".
Proof.
  destruct (rationale_priority one_blazer beach_wedding) as (recs & Hr & _ & Hall).
  - intros ? ? ?. repeat constructor.
  - assert (take 3 (List.filter (within_budget beach_wedding)
                      (candidates one_blazer beach_wedding)) = [navy_product]) as Hc
      by (vm_compute; reflexivity).
    rewrite Hc in Hall.
    apply list.Forall2_cons_inv_l in Hall as (r & rs & [He Hrat] & Hnil & ->).
    apply Forall2_nil_inv_l in Hnil as ->.
    exists r. split; [exact Hr|]. split; [exact He|exact Hrat].
Defined.

Lemma empty_catalog_seed_witness :
  exists recs,
    recommendations no_documents (budget_request 1300) = Some recs /\
    length recs = 3 /\
    map rec_est_price recs = [1560; 513; 126]%float /\
    Forall (fun r => rec_product_id r = None) recs.
Proof.
  destruct (empty_catalog_seed no_documents (budget_request 1300))
    as (recs & H1 & H2 & _ & _ & H3 & H4).
  - reflexivity.
  - repeat constructor; intros cat comp Hc Ha;
      vm_compute in Hc; injection Hc as <-;
      [ rewrite seed_suit_completion in Ha
      | rewrite seed_boots_completion in Ha
      | rewrite seed_shirt_completion in Ha ];
      injection Ha as <-; reflexivity.
  - exists recs. auto.
Defined.

Lemma no_fallback_after_filter_witness :
  one_blazer "product" (catalog_filter (budget_request 10)) 50 <> [] /\
  recommendations one_blazer (budget_request 10) = Some [].
Proof.
  split; [discriminate|].
  apply (no_fallback_after_filter one_blazer (budget_request 10)); [discriminate|].
  repeat constructor. exists "suit". eexists. split; [reflexivity|]. split.
  - apply (auto_complete_spec _ _ 500%float). reflexivity.
  - vm_compute. reflexivity.
Defined.

Lemma category_branch_first_witness :
  exists chosen kws recs,
    (chosen, kws) ∈ cat_map /\
    PyStr.any_in kws (last_user_text tux_chat) = true /\
    recommendations no_documents (category_request chosen) = Some recs /\
    chat no_documents tux_chat
      = Some (ChatResponse (category_reply chosen) (Some recs)).
Proof.
  apply (category_branch_first no_documents tux_chat).
  - intros ? ? ?. constructor.
  - exists ("suit", ["suit"; "tux"; "blazer"]). split; [left|reflexivity].
Defined.

(** * Further properties of the code *)

(** ** The completion engine *)

Lemma estimate_price_number product (r : gmap string value) price :
  estimate_price product r = Some price ->
  exists base, as_number (base_price_of product) = Some base.
Proof.
  unfold estimate_price, mul_float. intros H.
  destruct (fabric_step r 1) as [m1|]; [|discriminate]. cbn [mbind option_bind] in H.
  destruct (pattern_step r m1) as [m2|]; [|discriminate]. cbn [mbind option_bind] in H.
  destruct (fit_step r m2) as [m3|]; [|discriminate]. cbn [mbind option_bind] in H.
  destruct (as_number (base_price_of product)) as [base|]; [|discriminate].
  by exists base.
Qed.

Lemma returned_priced cust product out :
  auto_complete_customization cust product = Some out -> priced product = true.
Proof.
  intros Hout. unfold auto_complete_customization in Hout.
  destruct (estimate_price product (fill cust product)) as [price|] eqn:E;
    [|discriminate].
  destruct (estimate_price_number _ _ _ E) as [base Hb].
  unfold priced. apply bool_decide_eq_true_2. by exists base.
Qed.

(** X1: a product whose base price is not a number makes the engine
    raise, whatever the request. *)
Theorem non_numeric_base_price_raises cust (p : gmap string value) v :
  p !! "base_price" = Some v ->
  as_number v = None ->
  auto_complete_customization cust (Some p) = None.
Proof.
  intros Hv Hnum. unfold auto_complete_customization, estimate_price.
  assert (base_price_of (Some p) = v) as ->.
  { unfold base_price_of. by rewrite (dict_truthy_lookup _ _ _ Hv), Hv. }
  unfold mul_float. rewrite Hnum.
  destruct (fabric_step _ _) as [m1|]; [|done]. cbn [mbind option_bind].
  destruct (pattern_step _ _) as [m2|]; [|done]. cbn [mbind option_bind].
  by destruct (fit_step _ _).
Qed.

(** X2: the configuration has the keys of the dumped request, no more, no less. *)
Theorem config_keeps_keys cust product :
  priced product = true ->
  exists out,
    auto_complete_customization cust product = Some out /\
    dom (config out) = dom (model_dump cust) /\
    dom (config out) = field_keys.
Proof.
  intros Hp. destruct (priced_number _ Hp) as [base Hb].
  eexists. split; [by apply auto_complete_spec|]. cbn [config].
  by rewrite dom_fill, dom_model_dump.
Qed.

Lemma dict_truthy_empty : dict_truthy ∅ = false.
Proof. unfold dict_truthy. by rewrite dom_empty_L, bool_decide_true. Qed.

(** X3: an empty product dictionary counts as no product. *)
Theorem empty_product_is_none cust :
  auto_complete_customization cust (Some ∅) = auto_complete_customization cust None.
Proof.
  unfold auto_complete_customization, fill, prefill, estimate_price,
    inherit_options, base_price_of.
  by rewrite dict_truthy_empty.
Qed.

Lemma sized_truthy cust k v : truthy v = true -> sized cust k v = v.
Proof.
  intros Hv. unfold sized. rewrite Hv, andb_false_r.
  destruct (Customization.measurements cust) as [m|]; [|done].
  by destruct (Measurement.chest_cm m).
Qed.

Lemma defaulted_truthy base k v : truthy v = true -> defaulted base k v = v.
Proof. intros Hv. unfold defaulted, py_or. rewrite Hv. by destruct (assoc k base). Qed.

Lemma truthy_text o : o <> "" -> truthy (VStr o) = true.
Proof.
  intros Ho. unfold truthy, PyStr.truthy. by destruct (String.eqb_spec o "").
Qed.

Lemma fill_first_option cust p k o :
  k ∈ option_keys ->
  truthy (get (model_dump cust) k) = false ->
  first_option p k = Some o -> o <> "" ->
  get (fill cust (Some p)) k = VStr o.
Proof.
  intros Hk Hv Ho Hne. rewrite get_fill_steps.
  assert (dict_truthy p = true) as Hp.
  { unfold first_option in Ho.
    destruct (p !! (k ++ "s")) as [v|] eqn:E; [by eapply dict_truthy_lookup|].
    unfold get in Ho. destruct (p !! k) as [v|] eqn:E'; [by eapply dict_truthy_lookup|].
    discriminate. }
  unfold inherited, inherit_value.
  rewrite Hp, bool_decide_true, Hv, Ho by done. cbn [andb].
  rewrite defaulted_truthy, sized_truthy; auto using truthy_text.
Qed.

(** X4: an unset field takes the first element of the product's option
    list, under the plural key or, when that key is absent, under the
    field's own name, before any category default or size inference. *)
Theorem product_option_first cust p k o l :
  k ∈ option_keys ->
  truthy (get (model_dump cust) k) = false ->
  (p !! (k ++ "s") = Some (VList (o :: l)) \/
   (p !! (k ++ "s") = None /\ p !! k = Some (VList (o :: l)))) ->
  o <> "" ->
  priced (Some p) = true ->
  exists out,
    auto_complete_customization cust (Some p) = Some out /\
    get (config out) k = VStr o.
Proof.
  intros Hk Hv Hopt Hne Hp. destruct (priced_number _ Hp) as [base Hb].
  eexists. split; [by apply auto_complete_spec|]. cbn [config].
  apply fill_first_option; try done.
  unfold first_option, get. by destruct Hopt as [->|[-> ->]].
Qed.

(** X5: when the plural key is present but holds no non-empty list, the
    product gives the field nothing, whatever the field's own name holds:
    the field comes out as with no product. *)
Theorem plural_key_shadows cust p k v :
  k ∈ option_keys ->
  p !! (k ++ "s") = Some v ->
  (forall o l, v <> VList (o :: l)) ->
  priced (Some p) = true ->
  exists out out',
    auto_complete_customization cust (Some p) = Some out /\
    auto_complete_customization cust None = Some out' /\
    get (config out) k = get (config out') k.
Proof.
  intros Hk Hv Hnot Hp. destruct (priced_number _ Hp) as [base Hb].
  eexists. eexists. split; [by apply auto_complete_spec|].
  split; [by apply (auto_complete_spec _ None 300%float)|]. cbn [config].
  rewrite !get_fill_steps. do 2 f_equal.
  unfold inherited, inherit_value, first_option. rewrite Hv.
  destruct (dict_truthy p && bool_decide (k ∈ option_keys)); [|done].
  destruct (truthy (get (model_dump cust) k)); [done|].
  destruct v as [| | | |[|o l]| |]; try done. by destruct (Hnot o l).
Qed.

Lemma assoc_elem base k d :
  NoDup base.*1 -> (k, d) ∈ base -> assoc k base = Some d.
Proof.
  induction base as [|[k0 d0] base IH]; intros Hnd Hin.
  - by apply elem_of_nil in Hin.
  - cbn [fmap list_fmap fst] in Hnd. apply list.NoDup_cons in Hnd as [Hnotin Hnd].
    cbn [assoc]. apply elem_of_cons in Hin as [[= <- <-]|Hin].
    + by rewrite String.eqb_refl.
    + destruct (String.eqb_spec k0 k) as [->|Hne]; [|by apply IH].
      exfalso. apply Hnotin. by apply (list_elem_of_fmap_2 fst) in Hin.
Qed.

Lemma bundle_entry base k d :
  bundle_ok base = true -> (k, d) ∈ base ->
  assoc k base = Some d /\ d <> "" /\ k <> "size".
Proof.
  intros Hb Hin. unfold bundle_ok in Hb. apply andb_true_iff in Hb as [Hnd Hall].
  apply bool_decide_eq_true_1 in Hnd. split; [by apply assoc_elem|].
  rewrite forallb_forall in Hall. apply list_elem_of_In in Hin.
  specialize (Hall _ Hin). apply andb_true_iff in Hall as [Hk Hd].
  cbn [fst snd] in *. split.
  - unfold PyStr.truthy in Hd. intros ->. discriminate.
  - apply bool_decide_eq_true_1 in Hk. intros ->.
    rewrite !elem_of_cons, elem_of_nil in Hk.
    repeat (destruct Hk as [Hk|Hk]; [discriminate|]). done.
Qed.

(** X6: an unset field the product has no option for takes the default
    the category's bundle gives it. *)
Theorem category_default_fills cust product base k d :
  defaults !! Customization.category cust = Some base ->
  (k, d) ∈ base ->
  truthy (get (model_dump cust) k) = false ->
  (product = None \/
   exists p, product = Some p /\ p !! (k ++ "s") = None /\ p !! k = None) ->
  priced product = true ->
  exists out,
    auto_complete_customization cust product = Some out /\
    get (config out) k = VStr d.
Proof.
  intros Hbase Hin Hv Hprod Hp. destruct (priced_number _ Hp) as [b Hb].
  eexists. split; [by apply auto_complete_spec|]. cbn [config].
  rewrite get_fill_steps.
  assert (defaults_get (Customization.category cust) = base) as Hget.
  { unfold defaults_get. by rewrite Hbase. }
  pose proof (defaults_get_ok (Customization.category cust)) as Hok.
  rewrite Hget in *. destruct (bundle_entry _ _ _ Hok Hin) as (Ha & Hd & Hs).
  assert (inherited product k (get (model_dump cust) k) = get (model_dump cust) k)
    as ->.
  { destruct Hprod as [->|(p & -> & Hplural & Hown)]; [done|].
    assert (first_option p k = None) as Hnone.
    { unfold first_option, get. by rewrite Hplural, Hown. }
    unfold inherited, inherit_value. rewrite Hv, Hnone.
    by destruct (dict_truthy p && bool_decide (k ∈ option_keys)). }
  unfold defaulted, py_or. rewrite Ha, Hv.
  apply sized_truthy, truthy_text, Hd.
Qed.

(** X7: for a category outside the table and no product, nothing is
    filled but the size: every other field comes out as dumped, and
    without measurements the configuration is the dumped request. *)
Theorem unknown_category_untouched cust :
  defaults !! Customization.category cust = None ->
  exists out,
    auto_complete_customization cust None = Some out /\
    (forall k, k <> "size" -> get (config out) k = get (model_dump cust) k) /\
    (Customization.measurements cust = None -> config out = model_dump cust).
Proof.
  intros Hnone. eexists. split; [by apply (auto_complete_spec _ None 300%float)|].
  cbn [config].
  assert (defaults_get (Customization.category cust) = []) as Hget.
  { unfold defaults_get. by rewrite Hnone. }
  assert (forall k, get (fill cust None) k = sized cust k (get (model_dump cust) k))
    as Hfill.
  { intros k. rewrite get_fill_steps, Hget. done. }
  split.
  - intros k Hk. rewrite Hfill. unfold sized.
    destruct (String.eqb_spec k "size") as [->|_]; [done|]. cbn [andb].
    destruct (Customization.measurements cust) as [m|]; [|done].
    by destruct (Measurement.chest_cm m).
  - intros Hm. apply map_eq_get; [by rewrite dom_fill, dom_model_dump|].
    intros k. rewrite Hfill. unfold sized. by rewrite Hm.
Qed.

Lemma multiplier_of_bounds (r : gmap string value) m :
  multiplier_of r = Some m ->
  (1 <=? m)%float = true /\ (m <=? 1.7500000000000002)%float = true.
Proof.
  unfold multiplier_of, fabric_step, pattern_step, fit_step.
  destruct (truthy (get r "fabric")), (str_lower (get r "fabric")) as [fab|];
    cbn [mbind option_bind]; try discriminate;
  destruct (truthy (get r "pattern")), (str_lower (get r "pattern")) as [pat|];
    cbn [mbind option_bind]; try discriminate;
  destruct (truthy (get r "fit")), (str_lower (get r "fit")) as [ft|];
    cbn [mbind option_bind]; try discriminate.
  all: repeat match goal with
       | |- context [PyStr.contains ?a ?b] => destruct (PyStr.contains a b)
       | |- context [PyStr.mem ?a ?b] => destruct (PyStr.mem a b)
       end.
  all: intros [= <-]; split; reflexivity.
Qed.

(** X8: the price is the rounded product of the base price and a
    multiplier between 1.0 and 1.7500000000000002 (all four bonuses). *)
Theorem multiplier_bounds cust product :
  priced product = true ->
  exists out base m,
    auto_complete_customization cust product = Some out /\
    as_number (base_price_of product) = Some base /\
    multiplier_of (config out) = Some m /\
    est_price out = PyFloat.round2 (base * m) /\
    (1 <=? m)%float = true /\ (m <=? 1.7500000000000002)%float = true.
Proof.
  intros Hp. destruct (priced_number _ Hp) as [base Hb].
  assert (multiplier_of (fill cust product) = Some (multiplier_spec (fill cust product)))
    as Hm.
  { apply multiplier_steps; apply textual_fill, elem_option_keys; tauto. }
  eexists. exists base. eexists.
  split; [by apply auto_complete_spec|]. split; [done|].
  cbn [config est_price]. split; [exact Hm|]. split; [done|].
  by apply (multiplier_of_bounds (fill cust product)).
Qed.

Lemma SFleb_ltb_trans x y z :
  SFleb x y = true -> SFltb y z = true -> SFltb x z = true.
Proof.
  unfold SFleb, SFltb.
  destruct x as [sx|sx| |sx mx ex], y as [sy|sy| |sy my ey],
           z as [sz|sz| |sz mz ez]; simpl;
    try discriminate; try reflexivity;
    try (destruct sx; try discriminate; try reflexivity);
    try (destruct sy; try discriminate; try reflexivity);
    try (destruct sz; try discriminate; try reflexivity).
  all: change (Pos.compare_cont Eq) with Pos.compare.
  all: order_cases.
Qed.

Lemma leb_ltb_trans (x y z : float) :
  (x <=? y)%float = true -> (y <? z)%float = true -> (x <? z)%float = true.
Proof.
  rewrite FloatAxioms.leb_spec, !FloatAxioms.ltb_spec. apply SFleb_ltb_trans.
Qed.

(** X9: a larger chest never gets a smaller size. *)
Theorem size_band_monotone (c1 c2 : float) :
  (c1 <=? c2)%float = true ->
  size_rank (size_band c1) <= size_rank (size_band c2).
Proof.
  intros Hle. unfold size_band.
  destruct (c2 <? 90)%float eqn:E1.
  { rewrite (leb_ltb_trans _ _ _ Hle E1). done. }
  destruct (c2 <? 96)%float eqn:E2.
  { pose proof (leb_ltb_trans _ _ _ Hle E2) as H. rewrite H.
    destruct (c1 <? 90)%float; cbn; lia. }
  destruct (c2 <? 102)%float eqn:E3.
  { pose proof (leb_ltb_trans _ _ _ Hle E3) as H. rewrite H.
    destruct (c1 <? 90)%float, (c1 <? 96)%float; cbn; lia. }
  destruct (c2 <? 110)%float eqn:E4.
  { pose proof (leb_ltb_trans _ _ _ Hle E4) as H. rewrite H.
    destruct (c1 <? 90)%float, (c1 <? 96)%float, (c1 <? 102)%float; cbn; lia. }
  destruct (c1 <? 90)%float, (c1 <? 96)%float, (c1 <? 102)%float,
           (c1 <? 110)%float; cbn; lia.
Qed.

Lemma size_band_monotone_witness :
  (95.9 <=? 96)%float = true /\
  size_rank (size_band 95.9) <= size_rank (size_band 96).
Proof.
  split; [reflexivity|]. apply size_band_monotone. reflexivity.
Defined.

(** ** The customize endpoint *)

(** The engine reads a product through its option lists, its base price
    and its truth value only. *)
Lemma auto_complete_product_ext cust (p p' : gmap string value) :
  dict_truthy p = dict_truthy p' ->
  (forall k, k ∈ option_keys -> first_option p k = first_option p' k) ->
  p !! "base_price" = p' !! "base_price" ->
  auto_complete_customization cust (Some p) = auto_complete_customization cust (Some p').
Proof.
  intros Ht Hopt Hbase.
  assert (fill cust (Some p) = fill cust (Some p')) as Hfill.
  { apply map_eq_get; [by rewrite !dom_fill|]. intros k.
    rewrite !get_fill_steps. do 2 f_equal. unfold inherited, inherit_value.
    rewrite Ht. destruct (dict_truthy p'); [|done]. cbn [andb].
    destruct (bool_decide (k ∈ option_keys)) eqn:Hk; [|done].
    apply bool_decide_eq_true_1 in Hk. by rewrite (Hopt k Hk). }
  unfold auto_complete_customization, estimate_price, base_price_of.
  by rewrite Hfill, Ht, Hbase.
Qed.

Lemma first_option_renamed (p : gmap string value) id k :
  k ∈ option_keys ->
  first_option (<["id" := VStr id]> (delete "_id" p)) k = first_option p k.
Proof.
  intros Hk. unfold first_option, get.
  destruct (option_keys_cases k Hk) as [->|[->|[->|[->| ->]]]];
    cbn [String.append];
    rewrite !lookup_insert_ne, !lookup_delete_ne by done; done.
Qed.

Section LookupFacts.

Variable ObjectId : string -> option string.
Variable find_one : string -> option (option (gmap string value)).

(** X10: a stored product is used as it is stored: renaming its [_id]
    to [id] changes nothing of the completion. *)
Theorem customize_uses_stored_product cust pid oid product v id :
  Customization.product_id cust = Some pid ->
  pid <> "" ->
  ObjectId pid = Some oid ->
  find_one oid = Some (Some product) ->
  product !! "_id" = Some v ->
  py_str v = Some id ->
  customize ObjectId find_one cust
  = auto_complete_customization cust (Some product).
Proof.
  intros Hpid Hne Hoid Hfind Hid Hstr. unfold customize, load_product.
  assert (PyStr.truthy pid = true) as Htruthy.
  { unfold PyStr.truthy. by destruct (String.eqb_spec pid ""). }
  rewrite Hpid, Htruthy, Hoid, Hfind.
  rewrite (dict_truthy_lookup _ _ _ Hid), Hid, Hstr. cbn [mbind option_bind].
  apply auto_complete_product_ext.
  - rewrite (dict_truthy_lookup _ _ _ Hid).
    apply (dict_truthy_lookup _ "id" (VStr id)). by rewrite lookup_insert_eq.
  - intros k Hk. by apply first_option_renamed.
  - by rewrite lookup_insert_ne, lookup_delete_ne.
Qed.

(** X11: [customize] completes with no product when the request names none
    (no [product_id], or a blank one: the store is not asked), when the
    lookup raises, and when the document found has no [_id]. *)
Theorem customize_without_product cust :
  (Customization.product_id cust = None \/
   Customization.product_id cust = Some "" \/
   (exists pid oid, Customization.product_id cust = Some pid /\
                    ObjectId pid = Some oid /\ find_one oid = None) \/
   (exists pid oid product,
      Customization.product_id cust = Some pid /\ ObjectId pid = Some oid /\
      find_one oid = Some (Some product) /\ dict_truthy product = true /\
      product !! "_id" = None)) ->
  customize ObjectId find_one cust = auto_complete_customization cust None /\
  is_Some (customize ObjectId find_one cust).
Proof.
  intros H.
  assert (load_product ObjectId find_one cust = Some None) as Hload.
  { unfold load_product.
    destruct H as [->|[->|[(pid & oid & -> & Hoid & Hfind)
                          |(pid & oid & product & -> & Hoid & Hfind & Ht & Hid)]]].
    - done.
    - done.
    - destruct (PyStr.truthy pid); [|done]. by rewrite Hoid, Hfind.
    - destruct (PyStr.truthy pid); [|done]. by rewrite Hoid, Hfind, Ht, Hid. }
  unfold customize. rewrite Hload. cbn [mbind option_bind]. split; [done|].
  erewrite (auto_complete_spec _ None 300%float) by done. by eexists.
Qed.

End LookupFacts.

(** ** The ranker *)

(** What the loop adds to [out]: the entries of the candidates it kept,
    in the order it met them. *)
Lemma rank_sound req products : forall out res,
  rank req products out = Some res ->
  exists picked new,
    res = (out ++ new)%list /\
    picked `sublist_of` products /\
    Forall2 (entry_for req) picked new /\
    (length out < 3 -> length res <= 3).
Proof.
  induction products as [|p products IH]; intros out res Hr.
  - cbn in Hr. injection Hr as <-. exists [], []. rewrite app_nil_r.
    repeat split; [constructor|constructor|lia].
  - cbn [rank] in Hr.
    destruct (candidate_category req p) as [cat|] eqn:Hc; [|discriminate].
    cbn [mbind option_bind] in Hr.
    destruct (auto_complete_customization _ _) as [comp|] eqn:Ha; [|discriminate].
    cbn [mbind option_bind] in Hr.
    destruct (over_budget req (est_price comp)) eqn:Ho.
    + destruct (IH _ _ Hr) as (picked & new & -> & Hsub & Hall & Hlen).
      exists picked, new. repeat split; [by apply sublist_cons|done|done].
    + destruct (product_id_of p) as [pid|] eqn:Hp; [|discriminate].
      cbn [mbind option_bind] in Hr.
      fold (entry_of req p comp pid) in Hr.
      assert (entry_for req p (entry_of req p comp pid)) as He.
      { by exists cat, comp, pid. }
      destruct (3 <=? length (out ++ [entry_of req p comp pid]))%nat eqn:Hfull.
      * injection Hr as <-. exists [p], [entry_of req p comp pid].
        repeat split.
        -- apply sublist_skip, sublist_nil_l.
        -- by repeat constructor.
        -- rewrite length_app. cbn [length].
           apply Nat.leb_le in Hfull. rewrite length_app in Hfull. cbn in Hfull.
           intros. lia.
      * destruct (IH _ _ Hr) as (picked & new & -> & Hsub & Hall & Hlen).
        exists (p :: picked), (entry_of req p comp pid :: new).
        rewrite <- app_assoc. cbn [app]. repeat split.
        -- by apply sublist_skip.
        -- by constructor.
        -- intros _. rewrite <- app_assoc in Hlen. cbn [app] in Hlen. apply Hlen.
           apply Nat.leb_gt in Hfull. lia.
Qed.

Lemma candidates_nonempty
    (get_documents : string -> gmap string value -> nat -> list (gmap string value))
    req :
  1 <= length (candidates get_documents req) <= 6.
Proof.
  unfold candidates, or_seed. rewrite length_take.
  destruct (get_documents "product" (catalog_filter req) 50) as [|p ps];
    cbn [length seed]; lia.
Qed.

Lemma no_budget_keeps req price : no_budget req = true -> over_budget req price = false.
Proof.
  unfold no_budget, over_budget.
  destruct (RecommendationRequest.budget req) as [b|]; [|done].
  by destruct (PyFloat.truthy b).
Qed.

(** Without a budget the loop keeps every candidate until it has three. *)
Lemma rank_no_budget req products : forall out,
  no_budget req = true ->
  Forall (fun p => product_ok p = true) products ->
  length out < 3 ->
  exists new,
    rank req products out = Some (out ++ new)%list /\
    Forall2 (entry_for req) (take (3 - length out) products) new.
Proof.
  induction products as [|p products IH]; intros out Hnb Hok Hlen.
  - exists []. rewrite app_nil_r, take_nil. split; [done|constructor].
  - apply list.Forall_cons in Hok as [Hp Hok].
    destruct (candidate_category_ok req p Hp) as [cat Hc].
    destruct (product_ok_parts p Hp) as [Hpr [pid Hid]].
    destruct (priced_number _ Hpr) as [base Hb].
    pose proof (auto_complete_spec (Customization.of_category cat) _ base Hb) as Ha.
    set (comp := Completion _ _) in Ha.
    assert (over_budget req (est_price comp) = false) as Ho
      by by apply no_budget_keeps.
    rewrite (rank_keep req p products out cat comp pid Hc Ha Hid Ho).
    assert (entry_for req p (entry_of req p comp pid)) as He.
    { by exists cat, comp, pid. }
    unfold kept. rewrite length_app. cbn [length].
    destruct (3 - length out) as [|n] eqn:Hn; [lia|]. cbn [take].
    destruct (3 <=? length out + 1)%nat eqn:Hfull.
    + exists [entry_of req p comp pid]. split; [done|].
      apply Nat.leb_le in Hfull. assert (n = 0) as -> by lia.
      rewrite take_0. by repeat constructor.
    + apply Nat.leb_gt in Hfull.
      destruct (IH (out ++ [entry_of req p comp pid])%list Hnb Hok)
        as (new & Hr & Hall).
      { rewrite length_app. cbn [length]. lia. }
      exists (entry_of req p comp pid :: new). rewrite <- app_assoc in Hr.
      split; [exact Hr|]. constructor; [done|].
      rewrite length_app in Hall. cbn [length] in Hall.
      by replace (3 - (length out + 1)) with n in Hall by lia.
Qed.

Section RankerFacts.

Variable get_documents :
  string -> gmap string value -> nat -> list (gmap string value).

(** X12: the ranker returns at most three recommendations, and none of
    them is over the budget. *)
Theorem at_most_three_within_budget req :
  catalog_ok get_documents ->
  exists recs,
    recommendations get_documents req = Some recs /\
    length recs <= 3 /\
    Forall (fun r => over_budget req (rec_est_price r) = false) recs.
Proof.
  intros Hok. destruct (recommendations_returns get_documents req Hok) as (recs & Hr & _).
  exists recs. split; [exact Hr|]. unfold recommendations in Hr.
  destruct (rank_sound _ _ _ _ Hr) as (picked & new & -> & _ & Hall & Hlen).
  split; [apply Hlen; cbn; lia|]. cbn [app].
  clear -Hall. induction Hall as [|p r picked new (cat & comp & pid & _ & _ & _ & Ho & ->)];
    constructor; done.
Qed.

(** X13: the recommendations are the entries of candidates among the first
    six, in the order of the catalog (or of the seed), none twice. *)
Theorem recommendations_in_catalog_order req :
  catalog_ok get_documents ->
  exists recs picked,
    recommendations get_documents req = Some recs /\
    picked `sublist_of` candidates get_documents req /\
    Forall2 (entry_for req) picked recs.
Proof.
  intros Hok. destruct (recommendations_returns get_documents req Hok) as (recs & Hr & _).
  pose proof Hr as Hr'. unfold recommendations in Hr'.
  destruct (rank_sound _ _ _ _ Hr') as (picked & new & -> & Hsub & Hall & _).
  exists new, picked. by repeat split.
Qed.

(** X14: without a budget (unset or zero) the ranker returns the entries of
    the first three candidates (of all, when there are fewer), so at least
    one. *)
Theorem no_budget_first_three req :
  catalog_ok get_documents ->
  no_budget req = true ->
  exists recs,
    recommendations get_documents req = Some recs /\
    Forall2 (entry_for req) (take 3 (candidates get_documents req)) recs /\
    length recs = Nat.min 3 (length (candidates get_documents req)) /\
    1 <= length recs.
Proof.
  intros Hok Hnb.
  destruct (rank_no_budget req (candidates get_documents req) [] Hnb)
    as (new & Hr & Hall).
  { by apply candidates_ok. }
  { cbn [length]. lia. }
  exists new. split; [exact Hr|]. split; [exact Hall|].
  apply Forall2_length in Hall. rewrite length_take in Hall.
  cbn [length] in Hall.
  pose proof (candidates_nonempty get_documents req). split; lia.
Qed.

(** X15: a first candidate whose category is not a string, or whose base
    price is not a number, makes the ranker raise. *)
Theorem malformed_candidate_raises req p products v :
  get_documents "product" (catalog_filter req) 50 = p :: products ->
  ((p !! "category" = Some v /\ forall s, v <> VStr s) \/
   priced (Some p) = false) ->
  recommendations get_documents req = None.
Proof.
  intros Hfetch Hbad. unfold recommendations. rewrite Hfetch.
  cbn [or_seed take rank].
  destruct Hbad as [[Hc Hv]|Hp].
  - unfold candidate_category. rewrite Hc. cbn [default].
    destruct v; try done. by destruct (Hv s).
  - destruct (candidate_category req p) as [cat|]; [|done].
    cbn [mbind option_bind].
    destruct (auto_complete_customization _ (Some p)) as [comp|] eqn:Ha; [|done].
    apply returned_priced in Ha. congruence.
Qed.

End RankerFacts.

(** ** The router *)

Lemma choose_category_none table last :
  Forall (fun entry => PyStr.any_in entry.2 last = false) table ->
  choose_category table last = None.
Proof.
  induction table as [|[k kws] table IH]; intros H; [done|].
  apply list.Forall_cons in H as [Hk H]. cbn [choose_category snd] in *.
  rewrite Hk. by apply IH.
Qed.

Lemma lower_ascii_idem c : PyStr.lower_ascii (PyStr.lower_ascii c) = PyStr.lower_ascii c.
Proof. destruct c as [[] [] [] [] [] [] [] []]; reflexivity. Qed.

Lemma lower_idem s : PyStr.lower (PyStr.lower s) = PyStr.lower s.
Proof.
  induction s as [|c s IH]; [done|]. cbn [PyStr.lower].
  by rewrite lower_ascii_idem, IH.
Qed.

Lemma last_user_text_tail history content trailing :
  Forall (fun m => ChatMessage.role m <> "user") trailing ->
  last_user_text (ChatRequest.mk (history ++ user_says content :: trailing))
  = PyStr.lower content.
Proof.
  intros Hrest.
  assert (List.filter (fun m => String.eqb (ChatMessage.role m) "user") trailing = [])
    as Hnil.
  { induction Hrest as [|m trailing Hm _ IH]; [done|]. cbn [List.filter].
    by destruct (String.eqb_spec (ChatMessage.role m) "user"). }
  unfold last_user_text. cbn [ChatRequest.messages].
  rewrite List.filter_app. cbn [List.filter user_says ChatMessage.role].
  change (String.eqb "user" "user") with true. cbv iota.
  rewrite Hnil, List.map_app. cbn [List.map ChatMessage.content].
  by rewrite List.last_last.
Qed.

Lemma purpose_of_cases last :
  purpose_of last = "wedding" \/ purpose_of last = "business"
  \/ purpose_of last = "casual".
Proof.
  unfold purpose_of.
  destruct (PyStr.contains "wedding" last); [tauto|].
  destruct (PyStr.contains "business" last); tauto.
Qed.

(** X16: an "oxford" in the message never selects the shirt category: the
    shirt is chosen only when the message contains "shirt", and a message
    with "oxford" gets suit, boots or shoes. *)
Theorem oxford_never_shirt last :
  (choose_category cat_map last = Some "shirt" ->
   PyStr.contains "shirt" last = true) /\
  (PyStr.contains "oxford" last = true ->
   exists k, choose_category cat_map last = Some k /\ k ∈ ["suit"; "boots"; "shoes"]).
Proof.
  unfold cat_map. cbn [choose_category].
  assert (PyStr.contains "oxford" last = true ->
          PyStr.any_in ["shoe"; "oxford"; "derby"; "loafer"] last = true) as Hshoes.
  { intros H. cbn [PyStr.any_in existsb]. rewrite H. by rewrite orb_true_r. }
  split.
  - destruct (PyStr.any_in ["suit"; "tux"; "blazer"] last); [discriminate|].
    destruct (PyStr.any_in ["boot"] last); [discriminate|].
    destruct (PyStr.any_in ["shoe"; "oxford"; "derby"; "loafer"] last) eqn:Eshoes;
      [discriminate|].
    destruct (PyStr.any_in ["hat"; "fedora"; "trilby"] last); [discriminate|].
    destruct (PyStr.any_in ["belt"] last); [discriminate|].
    destruct (PyStr.any_in ["shirt"; "oxford"] last) eqn:Eshirt.
    + intros _. cbn [PyStr.any_in existsb] in Eshirt.
      destruct (PyStr.contains "shirt" last); [done|].
      destruct (PyStr.contains "oxford" last) eqn:Eox; [|discriminate].
      specialize (Hshoes eq_refl). discriminate.
    + destruct (PyStr.any_in ["trouser"; "pant"; "slacks"] last); by intros [=].
  - intros Hox. rewrite (Hshoes Hox).
    destruct (PyStr.any_in ["suit"; "tux"; "blazer"] last);
      [exists "suit"; split; [done|rewrite !elem_of_cons; tauto]|].
    destruct (PyStr.any_in ["boot"] last);
      [exists "boots"|exists "shoes"]; (split; [done|rewrite !elem_of_cons; tauto]).
Qed.

Section RouterFacts.

Variable get_documents :
  string -> gmap string value -> nat -> list (gmap string value).

(** The answer depends on the conversation through the last user text. *)
Lemma chat_ext req req' :
  last_user_text req = last_user_text req' ->
  chat get_documents req = chat get_documents req'.
Proof. intros H. unfold chat. by rewrite H. Qed.

(** X17: only the last user message counts: what was said before it, and
    any later message of another role, changes nothing. *)
Theorem only_last_user_message history content trailing :
  Forall (fun m => ChatMessage.role m <> "user") trailing ->
  chat get_documents (ChatRequest.mk (history ++ user_says content :: trailing))
  = chat get_documents (ChatRequest.mk [user_says content]).
Proof.
  intros Hrest. apply chat_ext.
  rewrite last_user_text_tail by done.
  symmetry. by apply (last_user_text_tail [] content []).
Qed.

(** X18: the letter case of an ASCII message does not matter: two
    messages that differ in case only get the same response. *)
Theorem chat_ignores_case history content content' :
  ascii_text content = true ->
  ascii_text content' = true ->
  PyStr.lower content = PyStr.lower content' ->
  chat get_documents (ChatRequest.mk (history ++ [user_says content]))
  = chat get_documents (ChatRequest.mk (history ++ [user_says content'])).
Proof.
  intros _ _ Hlow. apply chat_ext.
  by rewrite !last_user_text_tail by constructor.
Qed.

(** X19: when the last user message is ASCII and has no category keyword
    but an occasion keyword, the router asks the ranker for the purpose
    (wedding before business, else casual, so "black tie" alone is casual)
    with style "classic" and answers with the purpose message. *)
Theorem purpose_branch history content :
  catalog_ok get_documents ->
  ascii_text content = true ->
  Forall (fun entry => PyStr.any_in entry.2 (PyStr.lower content) = false) cat_map ->
  PyStr.any_in occasion_keywords (PyStr.lower content) = true ->
  let last := PyStr.lower content in
  let purpose :=
    if PyStr.contains "wedding" last then "wedding"
    else if PyStr.contains "business" last then "business"
    else "casual" in
  exists recs,
    recommendations get_documents
      (RecommendationRequest.mk (Some purpose) (Some "classic") None None None None)
      = Some recs /\
    chat get_documents (ChatRequest.mk (history ++ [user_says content]))
      = Some (ChatResponse ("Here are refined picks for " ++ purpose ++ ".") (Some recs)).
Proof.
  intros Hok _ Hcat Hocc last purpose.
  destruct (recommendations_returns get_documents (purpose_request purpose) Hok)
    as (recs & Hr & _).
  exists recs. split; [exact Hr|]. unfold chat.
  rewrite (last_user_text_tail history content []) by constructor.
  rewrite (choose_category_none _ _ Hcat).
  change (PyStr.any_in ["wedding"; "business"; "casual"; "black tie"]
            (PyStr.lower content))
    with (PyStr.any_in occasion_keywords (PyStr.lower content)).
  rewrite Hocc.
  change (RecommendationRequest.mk (Some (purpose_of (PyStr.lower content)))
            (Some "classic") None None None None) with (purpose_request purpose).
  by rewrite Hr.
Qed.

(** With neither a category nor an occasion keyword the router answers
    with the prompt and no data, without asking the store. *)
Lemma prompt_branch req :
  Forall (fun entry => PyStr.any_in entry.2 (last_user_text req) = false) cat_map ->
  PyStr.any_in occasion_keywords (last_user_text req) = false ->
  chat get_documents req = Some (ChatResponse prompt_reply None).
Proof.
  intros Hcat Hocc. unfold chat. rewrite (choose_category_none _ _ Hcat).
  change (PyStr.any_in ["wedding"; "business"; "casual"; "black tie"] (last_user_text req))
    with (PyStr.any_in occasion_keywords (last_user_text req)).
  by rewrite Hocc.
Qed.

(** X20: a conversation without a user message gets the prompt. *)
Theorem no_user_message_prompt req :
  Forall (fun m => ChatMessage.role m <> "user") (ChatRequest.messages req) ->
  chat get_documents req = Some (ChatResponse prompt_reply None).
Proof.
  intros Hnone.
  assert (last_user_text req = "") as Hlast.
  { unfold last_user_text.
    assert (List.filter (fun m => String.eqb (ChatMessage.role m) "user")
              (ChatRequest.messages req) = []) as ->; [|done].
    induction Hnone as [|m ms Hm _ IH]; [done|]. cbn [List.filter].
    by destruct (String.eqb_spec (ChatMessage.role m) "user"). }
  unfold chat. rewrite Hlast. reflexivity.
Qed.

Lemma chat_list_shape req :
  catalog_ok get_documents ->
  no_budget req = true ->
  (choose_rationale req = vintage_rationale \/ choose_rationale req = formal_rationale) ->
  exists recs,
    recommendations get_documents req = Some recs /\
    1 <= length recs <= 3 /\
    Forall (fun r => rationale r = vintage_rationale \/ rationale r = formal_rationale) recs.
Proof.
  intros Hok Hnb Hrat.
  destruct (recommendations_returns get_documents req Hok) as (recs & Hr & Hall).
  exists recs. split; [exact Hr|].
  destruct (rank_no_budget req (candidates get_documents req) [] Hnb)
    as (new & Hr' & Hlen).
  { by apply candidates_ok. }
  { cbn [length]. lia. }
  unfold recommendations in Hr. unfold candidates in Hr'. rewrite Hr in Hr'.
  injection Hr' as ->. cbn [app] in *. split.
  - apply Forall2_length in Hlen. rewrite length_take in Hlen. cbn [length] in Hlen.
    pose proof (candidates_nonempty get_documents req). lia.
  - eapply list.Forall_impl; [exact Hall|]. intros r ->. exact Hrat.
Qed.

(** X21: over a well-formed catalog the router always answers, and a list
    it attaches has one to three recommendations, each with the vintage
    or the formal rationale, never the default one. *)
Theorem chat_answers req :
  catalog_ok get_documents ->
  exists resp,
    chat get_documents req = Some resp /\
    forall recs, data resp = Some recs ->
      1 <= length recs <= 3 /\
      Forall (fun r => rationale r = vintage_rationale \/ rationale r = formal_rationale)
             recs.
Proof.
  intros Hok. unfold chat.
  destruct (choose_category cat_map (last_user_text req)) as [k|].
  - destruct (chat_list_shape (category_request k) Hok eq_refl) as (recs & Hr & Hshape).
    { left. reflexivity. }
    change (RecommendationRequest.mk None (Some "vintage") None None (Some k) None)
      with (category_request k).
    rewrite Hr. cbn [mbind option_bind]. eexists. split; [done|].
    cbn [data]. by intros ? [= <-].
  - destruct (PyStr.any_in _ _).
    + destruct (chat_list_shape (purpose_request (purpose_of (last_user_text req)))
                  Hok eq_refl) as (recs & Hr & Hshape).
      { destruct (purpose_of_cases (last_user_text req)) as [->|[->| ->]];
          [right|left|left]; reflexivity. }
      change (RecommendationRequest.mk (Some (purpose_of (last_user_text req)))
                (Some "classic") None None None None)
        with (purpose_request (purpose_of (last_user_text req))).
      rewrite Hr. cbn [mbind option_bind]. eexists. split; [done|].
      cbn [data]. by intros ? [= <-].
    + eexists. split; [done|]. cbn [data]. discriminate.
Qed.

End RouterFacts.

(** ** The listing endpoints *)

Lemma expose_id_spec (it o : gmap string value) :
  expose_id it = Some o ->
  o !! "_id" = None /\
  o !! "id" = Some (default VNone (VStr <$> (it !! "_id" ≫= py_str))) /\
  (forall k, k <> "id" -> k <> "_id" -> o !! k = it !! k).
Proof.
  unfold expose_id. destruct (it !! "_id") as [v|] eqn:E.
  - destruct (py_str v) as [id|] eqn:Ev; [|discriminate].
    cbn [mbind option_bind]. rewrite Ev.
    cbn [fmap option_fmap option_map default].
    intros [= <-]. split; [|split].
    + rewrite lookup_insert_ne by done. by rewrite lookup_delete_eq.
    + by rewrite lookup_insert_eq.
    + intros k H1 H2. by rewrite lookup_insert_ne, lookup_delete_ne.
  - cbn [mbind option_bind fmap option_fmap option_map default].
    intros [= <-]. split; [|split].
    + by rewrite lookup_insert_ne.
    + by rewrite lookup_insert_eq.
    + intros k H1 H2. by rewrite lookup_insert_ne.
Qed.

Lemma expose_id_returns (it : gmap string value) :
  id_known it -> is_Some (expose_id it).
Proof.
  unfold expose_id, id_known. destruct (it !! "_id") as [v|]; [|by eexists].
  intros [id ->]. by eexists.
Qed.

Lemma mapM_expose_id items :
  Forall id_known items ->
  exists out, mapM expose_id items = Some out /\ Forall2 exposed items out.
Proof.
  intros Hok.
  assert (is_Some (mapM expose_id items)) as [out Hout].
  { apply mapM_is_Some. eapply list.Forall_impl; [exact Hok|].
    intros it. apply expose_id_returns. }
  exists out. split; [done|]. apply mapM_Some_1 in Hout.
  eapply list.Forall2_impl; [exact Hout|]. intros it o. apply expose_id_spec.
Qed.

Section ListingFacts.

Variable get_documents :
  string -> gmap string value -> Z -> option (list (gmap string value)).

(** X22: [list_products] answers 500 when the store raises; otherwise it
    returns the documents in the store's order, each with its [_id] moved
    to [id] as text ([None] when it has no [_id]) and every other key
    unchanged; a blank category lists as no category. *)
Theorem list_products_exposes_ids category limit :
  match get_documents "product" (category_filter category) limit with
  | None =>
      list_products get_documents category limit = Some (HTTPException 500)
  | Some items =>
      Forall id_known items ->
      exists out,
        list_products get_documents category limit = Some (Returned out) /\
        Forall2 exposed items out
  end /\
  list_products get_documents (Some "") limit = list_products get_documents None limit.
Proof.
  split; [|reflexivity]. unfold list_products.
  destruct (get_documents "product" (category_filter category) limit) as [items|];
    [|done].
  intros Hok. destruct (mapM_expose_id items Hok) as (out & -> & Hall).
  by exists out.
Qed.

(** X23: [list_orders] answers 500 when the store raises; otherwise it
    returns the stored orders in order, each with its [_id] moved to [id]
    and every other key unchanged. *)
Theorem list_orders_exposes_ids limit :
  match get_documents "order" ∅ limit with
  | None => list_orders get_documents limit = Some (HTTPException 500)
  | Some items =>
      Forall id_known items ->
      exists out,
        list_orders get_documents limit = Some (Returned out) /\
        Forall2 exposed items out
  end.
Proof.
  unfold list_orders. destruct (get_documents "order" ∅ limit) as [items|]; [|done].
  intros Hok. destruct (mapM_expose_id items Hok) as (out & -> & Hall).
  by exists out.
Qed.

End ListingFacts.

Lemma non_numeric_base_price_raises_witness :
  auto_complete_customization (Customization.of_category "hat") (Some free_hat) = None.
Proof.
  apply (non_numeric_base_price_raises (Customization.of_category "hat") free_hat
           (VStr "free")); reflexivity.
Defined.

Lemma config_keeps_keys_witness :
  exists out,
    auto_complete_customization red_suit (Some navy_product) = Some out /\
    dom (config out) = field_keys.
Proof.
  destruct (config_keeps_keys red_suit (Some navy_product)) as (out & H1 & _ & H2).
  - vm_compute. reflexivity.
  - exists out. split; [exact H1|exact H2].
Defined.

Lemma product_option_first_witness :
  exists out,
    auto_complete_customization (Customization.of_category "suit") (Some olive_jacket)
      = Some out /\
    get (config out) "color" = VStr "olive".
Proof.
  apply (product_option_first (Customization.of_category "suit") olive_jacket
           "color" "olive" ["tan"]).
  - apply elem_option_keys. tauto.
  - vm_compute. reflexivity.
  - left. vm_compute. reflexivity.
  - discriminate.
  - vm_compute. reflexivity.
Defined.

Lemma plural_key_shadows_witness :
  exists out out',
    auto_complete_customization (Customization.of_category "suit") (Some shadowed_colors)
      = Some out /\
    auto_complete_customization (Customization.of_category "suit") None = Some out' /\
    get (config out) "color" = get (config out') "color".
Proof.
  apply (plural_key_shadows (Customization.of_category "suit") shadowed_colors
           "color" VNone).
  - apply elem_option_keys. tauto.
  - vm_compute. reflexivity.
  - discriminate.
  - vm_compute. reflexivity.
Defined.

Lemma category_default_fills_witness :
  exists out,
    auto_complete_customization (Customization.of_category "boots") (Some seed_boots)
      = Some out /\
    get (config out) "fabric" = VStr "full-grain leather".
Proof.
  apply (category_default_fills (Customization.of_category "boots") (Some seed_boots)
           [("color", "oxblood"); ("fabric", "full-grain leather"); ("fit", "regular")]
           "fabric" "full-grain leather").
  - vm_compute. reflexivity.
  - rewrite !elem_of_cons. tauto.
  - vm_compute. reflexivity.
  - right. exists seed_boots. repeat split; vm_compute; reflexivity.
  - vm_compute. reflexivity.
Defined.

Lemma unknown_category_untouched_witness :
  exists out,
    auto_complete_customization (Customization.of_category "scarf") None = Some out /\
    config out = model_dump (Customization.of_category "scarf").
Proof.
  destruct (unknown_category_untouched (Customization.of_category "scarf"))
    as (out & H1 & _ & H2).
  - vm_compute. reflexivity.
  - exists out. split; [exact H1|]. by apply H2.
Defined.

Lemma multiplier_bounds_witness :
  exists out m,
    auto_complete_customization cashmere_pinstripe (Some thousand) = Some out /\
    multiplier_of (config out) = Some m /\
    (1 <=? m)%float = true /\ (m <=? 1.7500000000000002)%float = true.
Proof.
  destruct (multiplier_bounds cashmere_pinstripe (Some thousand))
    as (out & base & m & H1 & _ & H2 & _ & H3 & H4).
  - vm_compute. reflexivity.
  - exists out, m. split; [exact H1|]. split; [exact H2|].
    split; [exact H3|exact H4].
Defined.

Lemma customize_uses_stored_product_witness :
  customize accepts_all finds_blazer blazer_request
  = auto_complete_customization blazer_request (Some stored_blazer).
Proof.
  apply (customize_uses_stored_product accepts_all finds_blazer blazer_request
           "64b7f0c2a1d3e4f5a6b7c8d9" "64b7f0c2a1d3e4f5a6b7c8d9" stored_blazer
           (VId "64b7f0c2a1d3e4f5a6b7c8d9") "64b7f0c2a1d3e4f5a6b7c8d9");
    try reflexivity.
  discriminate.
Defined.

Lemma customize_without_product_witness :
  customize accepts_all lookup_raises blazer_request
  = auto_complete_customization blazer_request None /\
  is_Some (customize accepts_all lookup_raises blazer_request).
Proof.
  apply (customize_without_product accepts_all lookup_raises blazer_request).
  right. right. left.
  exists "64b7f0c2a1d3e4f5a6b7c8d9", "64b7f0c2a1d3e4f5a6b7c8d9". by repeat split.
Defined.

Lemma one_blazer_ok : catalog_ok one_blazer.
Proof. intros ? ? ?. repeat constructor. Qed.

Lemma no_documents_ok : catalog_ok no_documents.
Proof. intros ? ? ?. constructor. Qed.

Lemma at_most_three_within_budget_witness :
  exists recs,
    recommendations one_blazer (budget_request 1000) = Some recs /\
    length recs <= 3 /\
    Forall (fun r => over_budget (budget_request 1000) (rec_est_price r) = false) recs.
Proof.
  apply (at_most_three_within_budget one_blazer (budget_request 1000)).
  apply one_blazer_ok.
Defined.

Lemma recommendations_in_catalog_order_witness :
  exists recs picked,
    recommendations no_documents any_request = Some recs /\
    picked `sublist_of` candidates no_documents any_request /\
    Forall2 (entry_for any_request) picked recs.
Proof.
  apply (recommendations_in_catalog_order no_documents any_request).
  apply no_documents_ok.
Defined.

Lemma no_budget_first_three_witness :
  exists recs,
    recommendations one_blazer (budget_request 0) = Some recs /\
    Forall2 (entry_for (budget_request 0))
      (take 3 (candidates one_blazer (budget_request 0))) recs /\
    length recs = Nat.min 3 (length (candidates one_blazer (budget_request 0))) /\
    1 <= length recs.
Proof.
  apply (no_budget_first_three one_blazer (budget_request 0)).
  - apply one_blazer_ok.
  - reflexivity.
Defined.

Lemma malformed_candidate_raises_witness :
  recommendations one_untitled any_request = None.
Proof.
  apply (malformed_candidate_raises one_untitled any_request no_category_value [] VNone).
  - reflexivity.
  - left. split; [vm_compute; reflexivity|discriminate].
Defined.

Lemma oxford_never_shirt_witness :
  exists k, choose_category cat_map "an oxford shirt" = Some k /\
            k ∈ ["suit"; "boots"; "shoes"].
Proof.
  apply (proj2 (oxford_never_shirt "an oxford shirt")). vm_compute. reflexivity.
Defined.

Lemma only_last_user_message_witness :
  chat no_documents
    (ChatRequest.mk ([user_says "boots please"] ++
                     user_says "a TUX" :: [ChatMessage.mk "assistant" "Boots?"]))
  = chat no_documents (ChatRequest.mk [user_says "a TUX"]).
Proof.
  apply (only_last_user_message no_documents [user_says "boots please"] "a TUX"
           [ChatMessage.mk "assistant" "Boots?"]).
  repeat constructor. discriminate.
Defined.

Lemma purpose_branch_witness :
  exists recs,
    recommendations no_documents
      (RecommendationRequest.mk (Some "casual") (Some "classic") None None None None)
      = Some recs /\
    chat no_documents
      (ChatRequest.mk ([user_says "a navy suit"]
                       ++ [user_says "Something for a Black Tie gala"]))
      = Some (ChatResponse "Here are refined picks for casual." (Some recs)).
Proof.
  apply (purpose_branch no_documents [user_says "a navy suit"]
           "Something for a Black Tie gala").
  - apply no_documents_ok.
  - reflexivity.
  - repeat constructor.
  - vm_compute. reflexivity.
Defined.

Lemma chat_ignores_case_witness :
  chat no_documents
    (ChatRequest.mk ([user_says "hello"] ++ [user_says "A TUX, please"]))
  = chat no_documents
      (ChatRequest.mk ([user_says "hello"] ++ [user_says "a tux, PLEASE"])).
Proof.
  apply (chat_ignores_case no_documents [user_says "hello"]
           "A TUX, please" "a tux, PLEASE"); reflexivity.
Defined.

Lemma no_user_message_prompt_witness :
  chat no_documents assistant_only_chat = Some (ChatResponse prompt_reply None).
Proof.
  apply (no_user_message_prompt no_documents assistant_only_chat).
  repeat constructor. discriminate.
Defined.

Lemma chat_answers_witness :
  exists resp,
    chat no_documents tux_chat = Some resp /\
    forall recs, data resp = Some recs ->
      1 <= length recs <= 3 /\
      Forall (fun r => rationale r = vintage_rationale \/ rationale r = formal_rationale)
             recs.
Proof.
  apply (chat_answers no_documents tux_chat). apply no_documents_ok.
Defined.

Lemma list_products_exposes_ids_witness :
  exists out,
    list_products lists_blazer (Some "suit") 50 = Some (Returned out) /\
    Forall2 exposed [stored_blazer] out.
Proof.
  apply (proj1 (list_products_exposes_ids lists_blazer (Some "suit") 50)).
  repeat constructor. unfold id_known. vm_compute. by eexists.
Defined.

Lemma list_orders_exposes_ids_witness :
  exists out,
    list_orders lists_blazer 50 = Some (Returned out) /\
    Forall2 exposed [stored_blazer] out.
Proof.
  apply (list_orders_exposes_ids lists_blazer 50).
  repeat constructor. unfold id_known. vm_compute. by eexists.
Defined.
